(** * Unitree D1 arm controller: command encoding and telemetry

    A shallow embedding of [go2_d1_control/controller.py] and
    [go2_d1_control/messages.py].  The controller builds a Python dict per
    command, stamps it with a sequence number and an address, serialises it
    with [json.dumps] and writes the resulting string on the command topic.

    Layout of the development:
    - [PyText]   : characters, decimal numerals, [int.__repr__] with the
                   interpreter's cap of 4300 digits on int conversions;
    - [PyNumber] : ints and floats, a float being the digits and decimal
                   exponent [float.__repr__] prints, with CPython's
                   formatting rules, and the lexer for number literals;
    - [PyJson]   : dicts, [json.dumps] and [json.loads] on the fragment of
                   JSON the controller emits, with the round trip;
    - [Messages] : [ArmString] and [PubServoInfo];
    - [Controller] : [D1ArmController] and its four commands. *)

From Stdlib Require Import ZArith String Ascii List Bool Lia.
From Stdlib Require Import DecimalFacts DecimalPos DecimalN DecimalZ.
Import ListNotations.

Local Open Scope Z_scope.

(** Text is handled as lists of characters; [chars] turns a literal into
    one. *)
Definition chars (s : string) : list ascii := list_ascii_of_string s.

Definition text := list ascii.

Definition dquote : ascii := "034"%char.
Definition backslash : ascii := "092"%char.

(** The exceptions the modelled code can raise: an index out of range,
    and the [ValueError] of an int conversion over the digit cap. *)
Inductive exception :=
| IndexError
| ValueError.

(** The outcome of an expression: a value or an exception. *)
Inductive result (A : Type) :=
| Return (a : A)
| Raise (e : exception).
Arguments Return {A} a.
Arguments Raise {A} e.

Definition rbind {A B} (r : result A) (k : A -> result B) : result B :=
  match r with
  | Return a => k a
  | Raise e => Raise e
  end.

(* ------------------------------------------------------------------ *)
Module PyText.

(** The decimal digit a character stands for, as a constructor of
    [Decimal.uint]. *)
Definition digit_of_char (c : ascii) : option (Decimal.uint -> Decimal.uint) :=
  match c with
  | "0" => Some Decimal.D0 | "1" => Some Decimal.D1 | "2" => Some Decimal.D2
  | "3" => Some Decimal.D3 | "4" => Some Decimal.D4 | "5" => Some Decimal.D5
  | "6" => Some Decimal.D6 | "7" => Some Decimal.D7 | "8" => Some Decimal.D8
  | "9" => Some Decimal.D9 | _ => None
  end%char.

Definition is_digit (c : ascii) : bool :=
  match digit_of_char c with Some _ => true | None => false end.

Fixpoint chars_of_uint (d : Decimal.uint) : text :=
  match d with
  | Decimal.Nil => []
  | Decimal.D0 d => "0"%char :: chars_of_uint d
  | Decimal.D1 d => "1"%char :: chars_of_uint d
  | Decimal.D2 d => "2"%char :: chars_of_uint d
  | Decimal.D3 d => "3"%char :: chars_of_uint d
  | Decimal.D4 d => "4"%char :: chars_of_uint d
  | Decimal.D5 d => "5"%char :: chars_of_uint d
  | Decimal.D6 d => "6"%char :: chars_of_uint d
  | Decimal.D7 d => "7"%char :: chars_of_uint d
  | Decimal.D8 d => "8"%char :: chars_of_uint d
  | Decimal.D9 d => "9"%char :: chars_of_uint d
  end.

(** Reads back a run of digits; stops at the first other character. *)
Fixpoint uint_of_chars (s : text) : Decimal.uint :=
  match s with
  | [] => Decimal.Nil
  | c :: s' =>
      match digit_of_char c with
      | Some k => k (uint_of_chars s')
      | None => Decimal.Nil
      end
  end.

(** The longest prefix of digits, and what follows it. *)
Fixpoint span_digits (s : text) : text * text :=
  match s with
  | c :: s' =>
      if is_digit c
      then let (ds, r) := span_digits s' in (c :: ds, r)
      else ([], s)
  | [] => ([], [])
  end.

(** The decimal numeral of an int: a minus sign for negatives, no
    padding. *)
Definition decimal (z : Z) : text :=
  match Z.to_int z with
  | Decimal.Pos d => chars_of_uint d
  | Decimal.Neg d => "-"%char :: chars_of_uint d
  end.

(** [sys.int_info.default_max_str_digits] *)
Definition max_str_digits : Z := 4300.

(** The number of digits of the numeral, the sign not counted. *)
Definition digit_count (z : Z) : Z :=
  Z.of_nat (List.length (chars_of_uint (Decimal.abs (Z.to_int z)))).

Definition int_fits (z : Z) : bool := digit_count z <=? max_str_digits.

(** [int.__repr__], which is [str] and the f-string conversion of an int
    as well.  Python ints are unbounded, but the conversion raises
    [ValueError] when the numeral has more than 4300 digits. *)
Definition int_repr (z : Z) : result text :=
  if int_fits z then Return (decimal z) else Raise ValueError.

(** The value a run of digits spells, with its sign. *)
Definition int_of_digits (neg : bool) (ds : text) : Z :=
  Z.of_int (if neg then Decimal.Neg (uint_of_chars ds)
            else Decimal.Pos (uint_of_chars ds)).

(** [int(s)] on the digits of a literal, its sign split off: the same cap
    applies, [None] standing for the [ValueError]. *)
Definition int_of_literal (neg : bool) (ds : text) : option Z :=
  if Z.of_nat (List.length ds) <=? max_str_digits
  then Some (int_of_digits neg ds)
  else None.

(** What may not follow a number for the lexer to stop where the encoder
    stopped: a digit, a point or an exponent mark. *)
Definition ends_number (rest : text) : bool :=
  match rest with
  | [] => true
  | c :: _ =>
      negb (is_digit c || Ascii.eqb c "." || Ascii.eqb c "e" || Ascii.eqb c "E")
  end.

Definition no_digit_ahead (rest : text) : bool :=
  match rest with
  | [] => true
  | c :: _ => negb (is_digit c)
  end.

End PyText.

(* ------------------------------------------------------------------ *)
Module PyNumber.
Import PyText.

(** A Python [float].  The code never computes with floats, it only prints
    them, so a finite float is represented by what [float.__repr__] works
    from: the shortest digit string that reads back to the same double and
    the position [decpt] of the decimal point relative to its first digit
    (value = 0.d1d2...dn * 10^decpt).  45.0 is [Finite false "45" 2],
    0.001 is [Finite false "1" (-2)], 0.0 is [Finite false "0" 1]. *)
Inductive pyfloat :=
| NaN
| Infinity (negative : bool)
| Finite (negative : bool) (digits : text) (decpt : Z).

(** A Python number: a parameter annotated [float] takes ints as well,
    and [json.dumps] prints them as ints. *)
Inductive number :=
| Int (z : Z)
| Float (f : pyfloat).

Definition zero_digit : ascii := "0"%char.

Definition zeros (n : nat) : text := repeat zero_digit n.

(** Digit strings of a float are canonical: digits only, no leading and no
    trailing zero, except for zero itself which is "0" with [decpt = 1].
    Every double has exactly one such form, so this excludes no float. *)
Definition float_ok (f : pyfloat) : bool :=
  match f with
  | Finite _ ds e =>
      match ds with
      | [] => false
      | d :: tl =>
          forallb is_digit ds &&
          (if Ascii.eqb d zero_digit
           then match tl with [] => e =? 1 | _ => false end
           else negb (Ascii.eqb (last ds d) zero_digit))
      end
  | _ => true
  end.

Definition number_ok (n : number) : bool :=
  match n with
  | Int _ => true
  | Float f => float_ok f
  end.

(** The exponent of the scientific notation, C's ["%+.02d"]. *)
Definition exponent_text (e : Z) : text :=
  let ds := chars_of_uint (N.to_uint (Z.abs_N e)) in
  (if e <? 0 then "-"%char else "+"%char)
    :: (if (length ds <? 2)%nat then zero_digit :: ds else ds).

Definition fixed_text (ds : text) (decpt : Z) : text :=
  if decpt <=? 0
  then chars "0." ++ zeros (Z.to_nat (- decpt)) ++ ds
  else if Z.of_nat (length ds) <=? decpt
       then ds ++ zeros (Z.to_nat decpt - length ds) ++ chars ".0"
       else firstn (Z.to_nat decpt) ds ++ "."%char :: skipn (Z.to_nat decpt) ds.

Definition exp_text (ds : text) (decpt : Z) : text :=
  match ds with
  | [] => []
  | d :: tl =>
      d :: match tl with [] => [] | _ => "."%char :: tl end
        ++ "e"%char :: exponent_text (decpt - 1)
  end.

(** The digits of a finite float laid out as [float.__repr__] does (format
    code 'r' of [PyOS_double_to_string]): scientific notation when
    [decpt <= -4] or [decpt > 16], otherwise positional with ".0" appended
    to integers. *)
Definition finite_text (ds : text) (decpt : Z) : text :=
  if (decpt <=? -4) || (16 <? decpt)
  then exp_text ds decpt
  else fixed_text ds decpt.

(** [float.__repr__] *)
Definition float_repr (f : pyfloat) : text :=
  match f with
  | NaN => chars "nan"
  | Infinity false => chars "inf"
  | Infinity true => chars "-inf"
  | Finite neg ds decpt =>
      (if neg then ["-"%char] else []) ++ finite_text ds decpt
  end.

(** Whether the conversion of a number to text stays under the cap; a
    float always does. *)
Definition number_fits (n : number) : bool :=
  match n with
  | Int z => int_fits z
  | Float _ => true
  end.

(** The text of a number whose conversion succeeds. *)
Definition number_text (n : number) : text :=
  match n with
  | Int z => decimal z
  | Float f => float_repr f
  end.

(** [repr] of a number, which is also what an f-string or [str] prints. *)
Definition number_repr (n : number) : result text :=
  match n with
  | Int z => int_repr z
  | Float f => Return (float_repr f)
  end.

(** [json.encoder]'s [floatstr], with the default [allow_nan=True]. *)
Definition floatstr (f : pyfloat) : text :=
  match f with
  | NaN => chars "NaN"
  | Infinity false => chars "Infinity"
  | Infinity true => chars "-Infinity"
  | Finite _ _ _ => float_repr f
  end.

(** The JSON text of a number whose conversion succeeds. *)
Definition json_number_text (n : number) : text :=
  match n with
  | Int z => decimal z
  | Float f => floatstr f
  end.

(** A number as the encoder writes it: [int.__repr__] or [floatstr]. *)
Definition json_number (n : number) : result text :=
  match n with
  | Int z => int_repr z
  | Float f => Return (floatstr f)
  end.

(** ** Reading a number literal *)

Fixpoint drop_zeros (s : text) : text :=
  match s with
  | c :: s' => if Ascii.eqb c zero_digit then drop_zeros s' else s
  | [] => []
  end.

Definition strip_trailing_zeros (s : text) : text :=
  rev (drop_zeros (rev s)).

(** [float(integer + frac + exp)] on the parts of a literal: the
    significant digits and where the point falls.  Exact on every literal
    that is the [repr] of a double, which is all the encoder emits. *)
Definition float_of_literal (neg : bool) (ip frac : text) (exp : Z) : pyfloat :=
  let all := ip ++ frac in
  let sig := drop_zeros all in
  match sig with
  | [] => Finite neg [zero_digit] 1
  | _ =>
      Finite neg (strip_trailing_zeros sig)
        (Z.of_nat (length ip) + exp - Z.of_nat (length all - length sig))
  end.

(** The integer part of a literal, after the sign: a lone 0, or a non-zero
    digit and the digits after it. *)
Definition match_int_part (s : text) : option (text * text) :=
  match s with
  | c :: t =>
      if Ascii.eqb c zero_digit then Some ([c], t)
      else if is_digit c
           then let (ds, r) := span_digits t in Some (c :: ds, r)
           else None
  | [] => None
  end.

(** The optional fraction: a point and at least one digit. *)
Definition match_frac (s : text) : option (text * text) :=
  match s with
  | c :: t =>
      if Ascii.eqb c "."
      then match span_digits t with
           | ([], _) => None
           | (ds, r) => Some (ds, r)
           end
      else None
  | [] => None
  end.

Definition match_sign (s : text) : bool * text :=
  match s with
  | c :: t =>
      if Ascii.eqb c "-" then (true, t)
      else if Ascii.eqb c "+" then (false, t)
      else (false, s)
  | [] => (false, s)
  end.

(** The optional exponent: e or E, an optional sign, at least one digit. *)
Definition match_exp (s : text) : option (Z * text) :=
  match s with
  | c :: t =>
      if Ascii.eqb c "e" || Ascii.eqb c "E"
      then let (neg, t1) := match_sign t in
           match span_digits t1 with
           | ([], _) => None
           | (ds, r) => Some (int_of_digits neg ds, r)
           end
      else None
  | [] => None
  end.

(** The literal after its sign, and [_scan_once]'s choice between [int]
    and [float]: a literal with a fraction or an exponent is a float. *)
Definition match_unsigned (neg : bool) (s1 : text) : option (number * text) :=
  match match_int_part s1 with
  | None => None
  | Some (ip, s2) =>
      match match_frac s2 with
      | Some (frac, s3) =>
          match match_exp s3 with
          | Some (e, s4) => Some (Float (float_of_literal neg ip frac e), s4)
          | None => Some (Float (float_of_literal neg ip frac 0), s3)
          end
      | None =>
          match match_exp s2 with
          | Some (e, s4) => Some (Float (float_of_literal neg ip [] e), s4)
          | None =>
              match int_of_literal neg ip with
              | Some z => Some (Int z, s2)
              | None => None
              end
          end
      end
  end.

(** [NUMBER_RE.match]: an optional minus sign, then the literal. *)
Definition match_number (s : text) : option (number * text) :=
  match s with
  | c :: t => if Ascii.eqb c "-" then match_unsigned true t
              else match_unsigned false s
  | [] => None
  end.

Fixpoint strip_prefix (p s : text) : option text :=
  match p, s with
  | [], _ => Some s
  | a :: p', b :: s' => if Ascii.eqb a b then strip_prefix p' s' else None
  | _ :: _, [] => None
  end.

(** The number cases of [_scan_once]: the regular expression first, then
    the three constants. *)
Definition scan_number (s : text) : option (number * text) :=
  match match_number s with
  | Some r => Some r
  | None =>
      match strip_prefix (chars "NaN") s with
      | Some r => Some (Float NaN, r)
      | None =>
          match strip_prefix (chars "Infinity") s with
          | Some r => Some (Float (Infinity false), r)
          | None =>
              match strip_prefix (chars "-Infinity") s with
              | Some r => Some (Float (Infinity true), r)
              | None => None
              end
          end
      end
  end.

End PyNumber.

(* ------------------------------------------------------------------ *)
Module PyJson.
Import PyText PyNumber.

(** The Python values the controller hands to [json.dumps]: numbers and
    dicts with string keys.  A dict keeps its items in insertion order. *)
#[local] Unset Elimination Schemes.
Inductive pyvalue :=
| Num (n : number)
| Dict (items : list (string * pyvalue)).
#[local] Set Elimination Schemes.

Definition dict := list (string * pyvalue).

(** [d[k]], [None] standing for [KeyError]. *)
Fixpoint dict_get (k : string) (d : dict) : option pyvalue :=
  match d with
  | [] => None
  | (k', v) :: d' => if String.eqb k' k then Some v else dict_get k d'
  end.

(** [d[k] = v]: an existing key keeps its position, a new one goes last. *)
Fixpoint dict_set (k : string) (v : pyvalue) (d : dict) : dict :=
  match d with
  | [] => [(k, v)]
  | (k', v') :: d' =>
      if String.eqb k' k then (k', v) :: d' else (k', v') :: dict_set k v d'
  end.

(** [dict(pairs)] *)
Definition dict_of_pairs (pairs : list (string * pyvalue)) : dict :=
  fold_left (fun d kv => dict_set (fst kv) (snd kv) d) pairs [].

(** ** Encoder: [json.dumps] with its default separators *)

Definition hex_digit (n : nat) : ascii :=
  nth n (chars "0123456789abcdef") "0"%char.

(** One character of [py_encode_basestring_ascii]. *)
Definition escape_char (c : ascii) : text :=
  if Ascii.eqb c dquote then [backslash; dquote]
  else if Ascii.eqb c backslash then [backslash; backslash]
  else if Ascii.eqb c "008" then [backslash; "b"%char]
  else if Ascii.eqb c "012" then [backslash; "f"%char]
  else if Ascii.eqb c "010" then [backslash; "n"%char]
  else if Ascii.eqb c "013" then [backslash; "r"%char]
  else if Ascii.eqb c "009" then [backslash; "t"%char]
  else
    let n := nat_of_ascii c in
    if ((32 <=? n) && (n <=? 126))%nat then [c]
    else backslash :: chars "u00" ++ [hex_digit (n / 16); hex_digit (n mod 16)].

Definition encode_string (s : string) : text :=
  dquote :: flat_map escape_char (chars s) ++ [dquote].

(** The loop of [_iterencode_dict]: the item separator before every item
    but the first, then the key, the key separator and the value.  An
    exception raised while a value is encoded ends the encoding. *)
Definition encode_items (enc : pyvalue -> result text)
  : bool -> dict -> result text :=
  fix go (first : bool) (l : dict) : result text :=
    match l with
    | [] => Return []
    | (k, x) :: l' =>
        rbind (enc x) (fun tx =>
        rbind (go false l') (fun tl =>
        Return ((if first then [] else chars ", ")
                  ++ encode_string k ++ chars ": " ++ tx ++ tl)))
    end.

Fixpoint encode (v : pyvalue) : result text :=
  match v with
  | Num n => json_number n
  | Dict items =>
      rbind (encode_items encode true items) (fun t =>
      Return ("{"%char :: t ++ ["}"%char]))
  end.

Definition json_dumps (v : pyvalue) : result string :=
  rbind (encode v) (fun t => Return (string_of_list_ascii t)).

(** The text the encoder writes when no conversion raises, as a total
    function: the same loop without the exceptions. *)
Definition encode_items_text (enc : pyvalue -> text) : bool -> dict -> text :=
  fix go (first : bool) (l : dict) : text :=
    match l with
    | [] => []
    | (k, x) :: l' =>
        (if first then [] else chars ", ")
          ++ encode_string k ++ chars ": " ++ enc x ++ go false l'
    end.

Fixpoint encode_text (v : pyvalue) : text :=
  match v with
  | Num n => json_number_text n
  | Dict items =>
      "{"%char :: encode_items_text encode_text true items ++ ["}"%char]
  end.

(** Every int of the value converts under the cap. *)
Fixpoint ints_fit (v : pyvalue) : bool :=
  match v with
  | Num n => number_fits n
  | Dict items => forallb (fun kv => ints_fit (snd kv)) items
  end.

(** ** Decoder: [json.loads]

    A restriction of Python's decoder to the JSON the encoder above can
    produce: numbers and objects, keys without escape sequences.  On
    arrays, strings as values, [true]/[false]/[null] and escaped keys it
    answers [None].  A float literal is read digit for digit, which is
    what [float] returns when the literal is the [repr] of a double. *)

Definition is_ws (c : ascii) : bool :=
  Ascii.eqb c " " || Ascii.eqb c "009" || Ascii.eqb c "010" || Ascii.eqb c "013".

Fixpoint skip_ws (s : text) : text :=
  match s with
  | c :: s' => if is_ws c then skip_ws s' else s
  | [] => []
  end.

(** [scanstring], entered after the opening quote. *)
Fixpoint scanstring (s : text) : option (text * text) :=
  match s with
  | [] => None
  | c :: s' =>
      if Ascii.eqb c dquote then Some ([], s')
      else if Ascii.eqb c backslash then None
      else if (nat_of_ascii c <? 32)%nat then None
      else match scanstring s' with
           | Some (k, r) => Some (c :: k, r)
           | None => None
           end
  end.

(** [_scan_once] and the loop of [JSONObject].  [JSONObject] is entered
    after the opening quote of a key with the pairs read so far.  The fuel
    bounds the number of calls; [json_loads] supplies the length of the
    input, enough for every text the encoder writes. *)
Fixpoint scan_once (fuel : nat) (s : text) : option (pyvalue * text) :=
  match fuel with
  | O => None
  | S fuel' =>
      match s with
      | c :: s1 =>
          if Ascii.eqb c "{"
          then match skip_ws s1 with
               | c2 :: s2 =>
                   if Ascii.eqb c2 "}" then Some (Dict [], s2)
                   else if Ascii.eqb c2 dquote then JSONObject fuel' s2 []
                   else None
               | [] => None
               end
          else match scan_number s with
               | Some (n, r) => Some (Num n, r)
               | None => None
               end
      | [] => None
      end
  end
with JSONObject (fuel : nat) (s : text) (pairs : list (string * pyvalue))
  : option (pyvalue * text) :=
  match fuel with
  | O => None
  | S fuel' =>
      match scanstring s with
      | None => None
      | Some (key, s1) =>
          match skip_ws s1 with
          | c :: s2 =>
              if Ascii.eqb c ":"
              then match scan_once fuel' (skip_ws s2) with
                   | None => None
                   | Some (value, s3) =>
                       let pairs' := pairs ++ [(string_of_list_ascii key, value)] in
                       match skip_ws s3 with
                       | c3 :: s4 =>
                           if Ascii.eqb c3 "}"
                           then Some (Dict (dict_of_pairs pairs'), s4)
                           else if Ascii.eqb c3 ","
                                then match skip_ws s4 with
                                     | c5 :: s5 =>
                                         if Ascii.eqb c5 dquote
                                         then JSONObject fuel' s5 pairs'
                                         else None
                                     | [] => None
                                     end
                                else None
                       | [] => None
                       end
                   end
              else None
          | [] => None
          end
      end
  end.

(** [JSONDecoder.decode]: leading whitespace, one value, trailing
    whitespace, nothing else. *)
Definition json_loads (s : string) : option pyvalue :=
  let t := skip_ws (chars s) in
  match scan_once (S (List.length t)) t with
  | Some (v, r) =>
      match skip_ws r with
      | [] => Some v
      | _ :: _ => None
      end
  | None => None
  end.

(** ** Well-formed values

    Keys free of characters the encoder escapes, no key twice in a dict (a
    Python dict cannot hold one twice), floats in canonical form. *)

Definition plain_char (c : ascii) : bool :=
  let n := nat_of_ascii c in
  ((32 <=? n) && (n <=? 126))%nat
  && negb (Ascii.eqb c dquote) && negb (Ascii.eqb c backslash).

Definition plain_key (k : string) : bool := forallb plain_char (chars k).

Fixpoint unique_keys (ks : list string) : bool :=
  match ks with
  | [] => true
  | k :: ks' => negb (existsb (String.eqb k) ks') && unique_keys ks'
  end.

Fixpoint value_ok (v : pyvalue) : bool :=
  match v with
  | Num n => number_ok n
  | Dict items =>
      forallb (fun kv => plain_key (fst kv) && value_ok (snd kv)) items
      && unique_keys (map fst items)
  end.

(** Number of nodes of a value, the fuel [scan_once] needs to read it. *)
Fixpoint size (v : pyvalue) : nat :=
  match v with
  | Num _ => 1
  | Dict items => S (fold_right (fun kv n => S (size (snd kv) + n)) O items)
  end.

(** The fuel the loop of [JSONObject] needs for the items of a dict. *)
Definition items_size (l : dict) : nat :=
  fold_right (fun kv n => S (size (snd kv) + n)) O l.

(** [v] reads back: [_scan_once] on its text, with fuel for its nodes and
    a text after it that ends a number, returns [v] and that text. *)
Definition reads_back (v : pyvalue) : Prop :=
  forall fuel rest,
    (size v <= fuel)%nat ->
    ends_number rest = true ->
    scan_once fuel (encode_text v ++ rest) = Some (v, rest).

Section ValueInduction.

Variable P : pyvalue -> Prop.
Hypothesis P_num : forall n, P (Num n).
Hypothesis P_dict :
  forall items, Forall (fun kv => P (snd kv)) items -> P (Dict items).

(** Induction on values, with the hypothesis for every value of a dict. *)
Fixpoint pyvalue_ind (v : pyvalue) : P v :=
  match v with
  | Num n => P_num n
  | Dict items =>
      P_dict items
        ((fix all (l : list (string * pyvalue))
            : Forall (fun kv => P (snd kv)) l :=
            match l with
            | [] => Forall_nil _
            | kv :: l' => Forall_cons kv (pyvalue_ind (snd kv)) (all l')
            end) items)
  end.

End ValueInduction.

End PyJson.

(* ------------------------------------------------------------------ *)
Module Messages.
Import PyNumber.

(** [ArmString]: a command to the arm as one JSON string. *)
Record ArmString := { data_ : string }.

Definition ArmString_default : ArmString := {| data_ := "" |}.

Definition float_zero : pyfloat := Finite false [zero_digit] 1.

(** [PubServoInfo]: the current angle of each joint. *)
Record PubServoInfo := {
  servo0_data_ : pyfloat;
  servo1_data_ : pyfloat;
  servo2_data_ : pyfloat;
  servo3_data_ : pyfloat;
  servo4_data_ : pyfloat;
  servo5_data_ : pyfloat;
  servo6_data_ : pyfloat
}.

(** The dataclass defaults: every field 0.0. *)
Definition PubServoInfo_default : PubServoInfo :=
  {| servo0_data_ := float_zero; servo1_data_ := float_zero;
     servo2_data_ := float_zero; servo3_data_ := float_zero;
     servo4_data_ := float_zero; servo5_data_ := float_zero;
     servo6_data_ := float_zero |}.

Definition as_list (self : PubServoInfo) : list pyfloat :=
  [ servo0_data_ self;
    servo1_data_ self;
    servo2_data_ self;
    servo3_data_ self;
    servo4_data_ self;
    servo5_data_ self;
    servo6_data_ self ].

End Messages.

(* ------------------------------------------------------------------ *)
Module Controller.
Import PyText PyNumber PyJson Messages.

Definition CMD_TOPIC : string := "rt/arm_Command".
Definition ANGLE_TOPIC : string := "current_servo_angle".
Definition FEEDBACK_TOPIC : string := "arm_Feedback".

Definition JOINT_NAMES : list string :=
  [ "Base rotation";
    "Shoulder pitch";
    "Shoulder roll";
    "Elbow pitch";
    "Wrist pitch";
    "Wrist roll";
    "Gripper" ]%string.

(** The controller object.  [participant] holds the DDS domain id,
    [cmd_writer] the samples written on the command topic, oldest first;
    the two readers are never read by the controller and are left out. *)
Record D1ArmController := {
  participant : Z;
  cmd_writer : list ArmString;
  _seq : Z
}.

(** The controller together with the lines printed so far. *)
Record world := {
  arm : D1ArmController;
  stdout : list string
}.

(** Statements: a state transformer that returns or raises.  A raise
    keeps the effects made before it. *)
Definition M (A : Type) : Type := world -> result A * world.

Definition ret {A} (a : A) : M A := fun w => (Return a, w).

Definition bind {A B} (m : M A) (k : A -> M B) : M B :=
  fun w =>
    match m w with
    | (Return a, w') => k a w'
    | (Raise e, w') => (Raise e, w')
    end.

Declare Scope py_scope.
Delimit Scope py_scope with py.
Notation "x <- m ;; k" := (bind m (fun x => k))
  (at level 61, m at next level, right associativity) : py_scope.
Notation "m ;; k" := (bind m (fun _ => k))
  (at level 61, right associativity) : py_scope.
Local Open Scope py_scope.

Definition raise {A} (e : exception) : M A := fun w => (Raise e, w).

(** An expression without effect on the world. *)
Definition eval {A} (r : result A) : M A := fun w => (r, w).

Definition print (line : text) : M unit :=
  fun w =>
    (Return tt,
     {| arm := arm w; stdout := stdout w ++ [string_of_list_ascii line] |}).

Definition get_seq : M Z := fun w => (Return (_seq (arm w)), w).

Definition set_seq (n : Z) : M unit :=
  fun w =>
    (Return tt,
     {| arm := {| participant := participant (arm w);
                  cmd_writer := cmd_writer (arm w);
                  _seq := n |};
        stdout := stdout w |}).

(** [self.cmd_writer.write(msg)] *)
Definition write (msg : ArmString) : M unit :=
  fun w =>
    (Return tt,
     {| arm := {| participant := participant (arm w);
                  cmd_writer := cmd_writer (arm w) ++ [msg];
                  _seq := _seq (arm w) |};
        stdout := stdout w |}).

(** [l[i]] on a Python list: a negative index counts from the end, an
    index out of range raises [IndexError]. *)
Definition getitem {A} (l : list A) (i : Z) : M A :=
  let len := Z.of_nat (List.length l) in
  let j := if i <? 0 then i + len else i in
  if (j <? 0) || (len <=? j) then raise IndexError
  else match nth_error l (Z.to_nat j) with
       | Some a => ret a
       | None => raise IndexError
       end.

(** [str] of a list: the [repr] of its items between brackets; the first
    item whose conversion raises ends it. *)
Fixpoint join_reprs (first : bool) (l : list number) : result text :=
  match l with
  | [] => Return []
  | n :: l' =>
      rbind (number_repr n) (fun tn =>
      rbind (join_reprs false l') (fun tl =>
      Return ((if first then [] else chars ", ") ++ tn ++ tl)))
  end.

Definition list_repr (l : list number) : result text :=
  rbind (join_reprs true l) (fun t => Return ("["%char :: t ++ ["]"%char])).

(** The same text when no conversion raises. *)
Fixpoint join_texts (first : bool) (l : list number) : text :=
  match l with
  | [] => []
  | n :: l' =>
      (if first then [] else chars ", ") ++ number_text n ++ join_texts false l'
  end.

Definition list_text (l : list number) : text :=
  "["%char :: join_texts true l ++ ["]"%char].

(** [__init__] *)
Definition __init__ (domain_id : Z) : world :=
  {| arm := {| participant := domain_id; cmd_writer := []; _seq := 0 |};
     stdout := [ "Initializing D1 Arm Controller...";
                 "D1 Arm Controller ready." ]%string |}.

(** [_send]: the payload is stamped, then encoded, and only then written
    and counted, so an exception of [json.dumps] leaves the writer and the
    counter as they were. *)
Definition _send (payload : dict) : M unit :=
  seq <- get_seq ;;
  let payload := dict_set "seq" (Num (Int seq)) payload in
  let payload := dict_set "address" (Num (Int 1)) payload in
  data <- eval (json_dumps (Dict payload)) ;;
  let msg := {| data_ := data |} in
  write msg ;;
  seq' <- get_seq ;;
  set_seq (seq' + 1).

(** [move_joint].  The pieces of an f-string are converted from left
    to right before anything is printed. *)
Definition move_joint (joint_id : Z) (angle : number) (delay_ms : Z) : M unit :=
  if (joint_id <? 0) || (6 <? joint_id) then
    tj <- eval (int_repr joint_id) ;;
    print (chars "Error: joint_id must be 0-6, got " ++ tj)
  else
    _send [ ("funcode", Num (Int 1));
            ("data", Dict [ ("id", Num (Int joint_id));
                            ("angle", Num angle);
                            ("delay_ms", Num (Int delay_ms)) ]) ]%string ;;
    tj <- eval (int_repr joint_id) ;;
    name <- getitem JOINT_NAMES joint_id ;;
    ta <- eval (number_repr angle) ;;
    print (chars "Joint " ++ tj ++ chars " (" ++ chars name
             ++ chars ") -> " ++ ta ++ chars " deg").

(** [move_all_joints].  [len] returns a machine-word size, of 19 digits at
    most, so its conversion in the error line cannot reach the cap and is
    written with [decimal]. *)
Definition move_all_joints (angles : list number) : M unit :=
  if negb (Z.of_nat (List.length angles) =? 7) then
    print (chars "Error: expected 7 angles, got "
             ++ decimal (Z.of_nat (List.length angles)))
  else
    a0 <- getitem angles 0 ;;
    a1 <- getitem angles 1 ;;
    a2 <- getitem angles 2 ;;
    a3 <- getitem angles 3 ;;
    a4 <- getitem angles 4 ;;
    a5 <- getitem angles 5 ;;
    a6 <- getitem angles 6 ;;
    _send [ ("funcode", Num (Int 2));
            ("data", Dict [ ("mode", Num (Int 1));
                            ("angle0", Num a0);
                            ("angle1", Num a1);
                            ("angle2", Num a2);
                            ("angle3", Num a3);
                            ("angle4", Num a4);
                            ("angle5", Num a5);
                            ("angle6", Num a6) ]) ]%string ;;
    ta <- eval (list_repr angles) ;;
    print (chars "All joints -> " ++ ta).

Definition enable_joints (mode : Z) : M unit :=
  _send [ ("funcode", Num (Int 5));
          ("data", Dict [ ("mode", Num (Int mode)) ]) ]%string ;;
  print (chars "Joints "
           ++ (if mode =? 0 then chars "enabled" else chars "disabled")).

(** The default of [enable_joints]'s parameter. *)
Definition enable_joints_default : M unit := enable_joints 0.

Definition go_to_zero : M unit :=
  _send [ ("funcode", Num (Int 7)) ]%string ;;
  print (chars "Moving to zero position...").

(** ** Sequences of calls *)

Inductive command :=
| MoveJoint (joint_id : Z) (angle : number) (delay_ms : Z)
| MoveAllJoints (angles : list number)
| EnableJoints (mode : Z)
| GoToZero.

Definition call (c : command) : M unit :=
  match c with
  | MoveJoint joint_id angle delay_ms => move_joint joint_id angle delay_ms
  | MoveAllJoints angles => move_all_joints angles
  | EnableJoints mode => enable_joints mode
  | GoToZero => go_to_zero
  end.

(** A caller that issues the commands one after the other; an exception
    ends the run where it is raised. *)
Fixpoint run (cs : list command) : M unit :=
  match cs with
  | [] => ret tt
  | c :: cs' => call c ;; run cs'
  end.

(** Whether a call passes the validation of its operation and so reaches
    [_send]. *)
Definition sends (c : command) : bool :=
  match c with
  | MoveJoint joint_id _ _ => (0 <=? joint_id) && (joint_id <=? 6)
  | MoveAllJoints angles => (List.length angles =? 7)%nat
  | EnableJoints _ => true
  | GoToZero => true
  end.

(** Whether every int a call has to convert to text, the counter
    included when the call reaches [_send], stays under the cap. *)
Definition call_fits (c : command) (w : world) : bool :=
  match c with
  | MoveJoint joint_id angle delay_ms =>
      if (0 <=? joint_id) && (joint_id <=? 6)
      then number_fits angle && int_fits delay_ms && int_fits (_seq (arm w))
      else int_fits joint_id
  | MoveAllJoints angles =>
      if (List.length angles =? 7)%nat
      then forallb number_fits angles && int_fits (_seq (arm w))
      else true
  | EnableJoints mode => int_fits mode && int_fits (_seq (arm w))
  | GoToZero => int_fits (_seq (arm w))
  end.

(** The floats a command carries are in canonical form. *)
Definition args_ok (c : command) : bool :=
  match c with
  | MoveJoint _ angle _ => number_ok angle
  | MoveAllJoints angles => forallb number_ok angles
  | EnableJoints _ => true
  | GoToZero => true
  end.

(** What the subscriber sees of a sample: the decoded payload. *)
Definition decoded (msg : ArmString) : option pyvalue :=
  json_loads (data_ msg).

(** A field of a decoded object. *)
Definition field (k : string) (v : pyvalue) : option pyvalue :=
  match v with
  | Dict items => dict_get k items
  | Num _ => None
  end.

(** A field of the decoded payload of a sample. *)
Definition msg_field (k : string) (msg : ArmString) : option pyvalue :=
  match decoded msg with
  | Some v => field k v
  | None => None
  end.

(** The sample that holds the text of a payload. *)
Definition sample (payload : dict) : ArmString :=
  {| data_ := string_of_list_ascii (encode_text (Dict payload)) |}.

(** The world after a send of [payload] (already stamped with [seq] and
    [address]) followed by the print of [line]. *)
Definition sent (w : world) (payload : dict) (line : string) : world :=
  {| arm := {| participant := participant (arm w);
               cmd_writer := cmd_writer (arm w) ++ [sample payload];
               _seq := _seq (arm w) + 1 |};
     stdout := stdout w ++ [line] |}.

(** The samples a statement adds to the command topic. *)
Definition published_by {A} (m : M A) (w : world) : list ArmString :=
  skipn (List.length (cmd_writer (arm w))) (cmd_writer (arm (snd (m w)))).

(** The float 45.0. *)
Definition float_45 : pyfloat := Finite false (chars "45") 2.

(** A key as the encoder writes it. *)
Definition quoted (k : string) : text := dquote :: chars k ++ [dquote].

(** The least int whose conversion to text raises: 1 and 4300 zeros. *)
Definition huge : Z := 10 ^ 4300.

(** A controller on another domain, with an earlier sample and other
    output, whose counter is 0. *)
Definition other_world : world :=
  {| arm := {| participant := 7;
               cmd_writer := [{| data_ := "{}" |}];
               _seq := 0 |};
     stdout := [] |}.

(** A run with two rejected calls among four that send. *)
Definition example_calls : list command :=
  [ MoveJoint 7 (Float float_45) 0;
    EnableJoints 1;
    MoveJoint 3 (Float float_45) 0;
    MoveAllJoints [Int 1; Int 2];
    MoveAllJoints (map Int [0; 10; 20; 30; 40; 50; 60]);
    GoToZero ].

(** The key of the i-th angle of a move-all command. *)
Definition angle_key (i : nat) : string :=
  string_of_list_ascii (chars "angle" ++ decimal (Z.of_nat i)).

End Controller.

(* ================================================================== *)
(** * Facts about text and numerals *)

Import PyText PyNumber PyJson Messages Controller.

(** Side conditions of the lexer lemmas. *)
Ltac side := first [assumption | reflexivity | discriminate].

(** Re-associates the text under [match_int_part] into the given shape. *)
Ltac reshape shape :=
  match goal with
  | |- context [match_int_part ?t] =>
      replace t with shape
        by (simpl; rewrite <- ?app_assoc; simpl; rewrite <- ?app_assoc;
            reflexivity)
  end.

(** Normalises the test of [send_result] on the payload of a command. *)
Ltac stamped_fits :=
  cbv zeta;
  cbn [dict_set String.eqb Ascii.eqb Bool.eqb ints_fit forallb snd number_fits];
  change (int_fits 1) with true; change (int_fits 2) with true;
  change (int_fits 5) with true; change (int_fits 7) with true;
  cbn [andb]; rewrite ?andb_true_r.

Section Examples.

(** The layouts of [float.__repr__]: positional between 1e-4 and 1e16,
    scientific outside, ".0" on integers, two exponent digits at least. *)
Example float_repr_examples :
  map (fun f => string_of_list_ascii (float_repr f))
      [ Finite false (chars "45") 2;
        Finite false (chars "1") (-2);
        Finite false (chars "0") 1;
        Finite true (chars "0") 1;
        Finite true (chars "15") 17;
        Finite false (chars "1") 17;
        Finite false (chars "1") 16;
        Finite false (chars "1") (-4);
        Finite false (chars "1") (-3);
        Finite false (chars "12345") 2;
        Finite false (chars "12345") 301;
        NaN; Infinity true ]
  = [ "45.0"; "0.001"; "0.0"; "-0.0"; "-1.5e+16"; "1e+16";
      "1000000000000000.0"; "1e-05"; "0.0001"; "12.345"; "1.2345e+300";
      "nan"; "-inf" ]%string.
Proof. reflexivity. Qed.

Example decimal_examples :
  map (fun z => string_of_list_ascii (decimal z)) [0; 7; -1; 12345; -9870]
  = [ "0"; "7"; "-1"; "12345"; "-9870" ]%string.
Proof. reflexivity. Qed.

(** The decoder on texts the encoder does not produce: white space is
    skipped, a later duplicate of a key replaces the value of the first,
    and leading zeros, a bare point, trailing text and an open object are
    refused. *)
Example json_loads_examples :
  json_loads " { } " = Some (Dict [])
  /\ json_loads "-12.50e1" = Some (Num (Float (Finite true (chars "125") 3)))
  /\ json_loads
       (string_of_list_ascii
          ("{"%char :: quoted "a" ++ chars ":1 ," ++ quoted "b" ++ chars ": 2,"
             ++ quoted "a" ++ chars ":3}"))
     = Some (Dict [("a", Num (Int 3)); ("b", Num (Int 2))]%string)
  /\ json_loads "007" = None
  /\ json_loads "1." = None
  /\ json_loads "1 2" = None
  /\ json_loads "{" = None.
Proof. repeat split. Qed.

End Examples.

Section TextFacts.

Lemma is_digit_chars_of_uint (d : Decimal.uint) :
  forallb is_digit (chars_of_uint d) = true.
Proof. induction d; simpl; auto. Qed.

Lemma uint_of_chars_of_uint (d : Decimal.uint) :
  uint_of_chars (chars_of_uint d) = d.
Proof. induction d; simpl; congruence. Qed.

Lemma span_digits_app (ds rest : text) :
  forallb is_digit ds = true ->
  no_digit_ahead rest = true ->
  span_digits (ds ++ rest) = (ds, rest).
Proof.
  induction ds as [|c ds IH]; simpl; intros Hds Hrest.
  - destruct rest as [|c r]; simpl in *; auto.
    apply negb_true_iff in Hrest. now rewrite Hrest.
  - apply andb_true_iff in Hds as [Hc Hds].
    rewrite Hc, IH; auto.
Qed.

Lemma ends_number_no_digit (rest : text) :
  ends_number rest = true -> no_digit_ahead rest = true.
Proof.
  destruct rest as [|c r]; simpl; auto.
  intros H. apply negb_true_iff in H.
  repeat (apply orb_false_iff in H as [H _]). now rewrite H.
Qed.

Lemma length_chars_of_uint (d : Decimal.uint) :
  List.length (chars_of_uint d) = Decimal.nb_digits d.
Proof. induction d; simpl; auto. Qed.

(** The numeral of a positive number starts with a digit other than 0. *)
Lemma to_uint_head (p : positive) :
  exists c tl, chars_of_uint (Pos.to_uint p) = c :: tl
               /\ is_digit c = true /\ Ascii.eqb c zero_digit = false.
Proof.
  pose proof (DecimalPos.Unsigned.to_uint_nonzero p) as Hnz.
  pose proof (DecimalPos.Unsigned.to_uint_nonnil p) as Hnn.
  assert (Hu : Decimal.unorm (Pos.to_uint p) = Pos.to_uint p).
  { pose proof (DecimalPos.Unsigned.to_of (Pos.to_uint p)) as H.
    rewrite DecimalPos.Unsigned.of_to in H. simpl in H. congruence. }
  destruct (Pos.to_uint p) as [|d|d|d|d|d|d|d|d|d|d] eqn:E;
    try congruence; simpl; try (do 2 eexists; repeat split; reflexivity).
  exfalso. rewrite unorm_D0 in Hu.
  destruct d as [|d|d|d|d|d|d|d|d|d|d];
    try (apply Hnz; reflexivity);
    match type of Hu with
    | Decimal.unorm ?u = _ =>
        assert (Hle : (Decimal.nb_digits (Decimal.unorm u) <= Decimal.nb_digits u)%nat)
          by (apply nb_digits_unorm; discriminate);
        rewrite Hu in Hle; simpl in Hle; lia
    end.
Qed.

End TextFacts.

Section NumberFacts.

Lemma digit_not_minus (c : ascii) :
  is_digit c = true -> Ascii.eqb c "-" = false.
Proof.
  destruct c as [[] [] [] [] [] [] [] []]; simpl; intros H;
    try discriminate; reflexivity.
Qed.

Lemma match_frac_end (rest : text) :
  ends_number rest = true -> match_frac rest = None.
Proof.
  destruct rest as [|c r]; simpl; auto.
  intros H. apply negb_true_iff in H.
  apply orb_false_iff in H as [H _]. apply orb_false_iff in H as [H _].
  apply orb_false_iff in H as [_ H]. now rewrite H.
Qed.

Lemma match_exp_end (rest : text) :
  ends_number rest = true -> match_exp rest = None.
Proof.
  destruct rest as [|c r]; simpl; auto.
  intros H. apply negb_true_iff in H.
  apply orb_false_iff in H as [H HE]. apply orb_false_iff in H as [_ He].
  now rewrite He, HE.
Qed.

(** An integer literal, a sign apart, reads back as the int it spells. *)
Lemma match_unsigned_int (neg : bool) (c : ascii) (tl rest : text) :
  forallb is_digit (c :: tl) = true ->
  Ascii.eqb c zero_digit = false \/ tl = [] ->
  Z.of_nat (List.length (c :: tl)) <= max_str_digits ->
  ends_number rest = true ->
  match_unsigned neg ((c :: tl) ++ rest)
  = Some (Int (int_of_digits neg (c :: tl)), rest).
Proof.
  intros Hds Hc Hcap Hrest. simpl in Hds. apply andb_true_iff in Hds as [Hd Htl].
  assert (Hlit : int_of_literal neg (c :: tl)
                 = Some (int_of_digits neg (c :: tl))).
  { unfold int_of_literal. apply Z.leb_le in Hcap. now rewrite Hcap. }
  unfold match_unsigned, match_int_part. cbn [app].
  destruct (Ascii.eqb c zero_digit) eqn:E.
  - destruct Hc as [Hc|Hc]; [discriminate|subst tl]. cbn [app].
    now rewrite match_frac_end, match_exp_end, Hlit.
  - rewrite Hd, span_digits_app by auto using ends_number_no_digit.
    now rewrite match_frac_end, match_exp_end, Hlit.
Qed.

(** [int(repr(z)) == z], through the lexer, for an int under the cap. *)
Lemma match_number_int (z : Z) (rest : text) :
  int_fits z = true ->
  ends_number rest = true ->
  match_number (decimal z ++ rest) = Some (Int z, rest).
Proof.
  intros Hfit Hrest. unfold int_fits, digit_count in Hfit.
  apply Z.leb_le in Hfit. unfold decimal.
  destruct z as [|p|p]; simpl Z.to_int in *; cbv iota; cbn [Decimal.abs] in Hfit.
  - change (match_unsigned false ([zero_digit] ++ rest) = Some (Int 0, rest)).
    rewrite match_unsigned_int; auto.
  - destruct (to_uint_head p) as (c & tl & E & Hd & Hz).
    pose proof (is_digit_chars_of_uint (Pos.to_uint p)) as Hall.
    pose proof (uint_of_chars_of_uint (Pos.to_uint p)) as Hback.
    rewrite E in *. simpl app. unfold match_number.
    rewrite (digit_not_minus c Hd).
    change (c :: tl ++ rest) with ((c :: tl) ++ rest).
    rewrite match_unsigned_int by auto.
    unfold int_of_digits. rewrite Hback.
    change (Decimal.Pos (Pos.to_uint p)) with (Z.to_int (Z.pos p)).
    now rewrite DecimalZ.of_to.
  - destruct (to_uint_head p) as (c & tl & E & Hd & Hz).
    pose proof (is_digit_chars_of_uint (Pos.to_uint p)) as Hall.
    pose proof (uint_of_chars_of_uint (Pos.to_uint p)) as Hback.
    rewrite E in *. simpl app. unfold match_number. simpl Ascii.eqb. cbv iota.
    change (c :: tl ++ rest) with ((c :: tl) ++ rest).
    rewrite match_unsigned_int by auto.
    unfold int_of_digits. rewrite Hback.
    change (Decimal.Neg (Pos.to_uint p)) with (Z.to_int (Z.neg p)).
    now rewrite DecimalZ.of_to.
Qed.

Lemma is_digit_zeros (k : nat) : forallb is_digit (zeros k) = true.
Proof. induction k; simpl; auto. Qed.

Lemma drop_zeros_zeros (k : nat) (s : text) :
  drop_zeros (zeros k ++ s) = drop_zeros s.
Proof. induction k; simpl; auto. Qed.

Lemma drop_zeros_head (c : ascii) (s : text) :
  Ascii.eqb c zero_digit = false -> drop_zeros (c :: s) = c :: s.
Proof. intros H. simpl. now rewrite H. Qed.

Lemma length_zeros (k : nat) : List.length (zeros k) = k.
Proof. apply repeat_length. Qed.

(** Zeros appended to digits that end in a non-zero digit are the trailing
    zeros. *)
Lemma strip_trailing_zeros_app (s : text) (d : ascii) (k : nat) :
  s <> [] ->
  Ascii.eqb (last s d) zero_digit = false ->
  strip_trailing_zeros (s ++ zeros k) = s.
Proof.
  intros Hne Hlast. unfold strip_trailing_zeros.
  destruct (exists_last Hne) as (l' & a & ->).
  rewrite last_last in Hlast.
  rewrite rev_app_distr. unfold zeros at 1. rewrite rev_repeat.
  fold (zeros k). rewrite drop_zeros_zeros.
  rewrite rev_app_distr. simpl. rewrite Hlast.
  simpl. now rewrite rev_involutive.
Qed.

Lemma strip_trailing_zeros_id (s : text) (d : ascii) :
  s <> [] ->
  Ascii.eqb (last s d) zero_digit = false ->
  strip_trailing_zeros s = s.
Proof.
  intros Hne Hlast.
  rewrite <- (List.app_nil_r s) at 1.
  exact (strip_trailing_zeros_app s d 0 Hne Hlast).
Qed.

(** The two shapes of a canonical digit string. *)
Lemma float_ok_cases (neg : bool) (ds : text) (e : Z) :
  float_ok (Finite neg ds e) = true ->
  (ds = [zero_digit] /\ e = 1)
  \/ (exists d tl, ds = d :: tl
        /\ forallb is_digit ds = true
        /\ Ascii.eqb d zero_digit = false
        /\ Ascii.eqb (last ds d) zero_digit = false).
Proof.
  simpl. destruct ds as [|d tl]; [discriminate|].
  intros H. apply andb_true_iff in H as [Hall H].
  destruct (Ascii.eqb d zero_digit) eqn:E.
  - left. destruct tl; [|discriminate].
    apply Ascii.eqb_eq in E. apply Z.eqb_eq in H. now subst.
  - right. exists d, tl. apply negb_true_iff in H. auto.
Qed.

(** The exponent the encoder prints reads back. *)
Lemma match_exp_exponent_text (e : Z) (rest : text) :
  no_digit_ahead rest = true ->
  match_exp ("e"%char :: exponent_text e ++ rest) = Some (e, rest).
Proof.
  intros Hrest. unfold match_exp, exponent_text.
  simpl Ascii.eqb. cbv iota. simpl orb. cbv iota.
  set (n := Z.abs_N e).
  set (ds := chars_of_uint (N.to_uint n)).
  set (pad := if (List.length ds <? 2)%nat then zero_digit :: ds else ds).
  assert (Hpad : forallb is_digit pad = true).
  { unfold pad. destruct (List.length ds <? 2)%nat; simpl;
      apply is_digit_chars_of_uint. }
  assert (Hval : Z.of_N (Pos.of_uint (uint_of_chars pad)) = Z.abs e).
  { unfold pad.
    destruct (List.length ds <? 2)%nat; simpl;
      unfold ds; rewrite uint_of_chars_of_uint;
      change (Pos.of_uint (N.to_uint n)) with (N.of_uint (N.to_uint n));
      rewrite DecimalN.Unsigned.of_to; unfold n; apply N2Z.inj_abs_N. }
  assert (Hne : pad <> []).
  { unfold pad. destruct (List.length ds <? 2)%nat; [discriminate|].
    unfold ds. destruct n; simpl; [discriminate|].
    destruct (to_uint_head p) as (c & tl & E & _). rewrite E. discriminate. }
  assert (Hsign : match_sign ((if e <? 0 then "-"%char else "+"%char) :: pad ++ rest)
                  = (e <? 0, pad ++ rest)).
  { destruct (e <? 0); reflexivity. }
  simpl app. rewrite Hsign, span_digits_app by assumption.
  destruct pad as [|c pad']; [congruence|].
  f_equal. f_equal. unfold int_of_digits.
  destruct (e <? 0) eqn:E; unfold Z.of_int, Z.of_uint; rewrite Hval.
  - apply Z.ltb_lt in E. lia.
  - apply Z.ltb_ge in E. lia.
Qed.

End NumberFacts.

Section FloatFacts.

Lemma match_int_part_digits (c : ascii) (tl rest : text) :
  forallb is_digit (c :: tl) = true ->
  Ascii.eqb c zero_digit = false ->
  no_digit_ahead rest = true ->
  match_int_part ((c :: tl) ++ rest) = Some (c :: tl, rest).
Proof.
  intros Hds Hc Hrest. simpl in Hds. apply andb_true_iff in Hds as [Hd Htl].
  unfold match_int_part. simpl.
  rewrite Hc, Hd, span_digits_app by assumption. reflexivity.
Qed.

Lemma match_int_part_zero (rest : text) :
  match_int_part (zero_digit :: rest) = Some ([zero_digit], rest).
Proof. reflexivity. Qed.

Lemma match_frac_digits (ds rest : text) :
  ds <> [] ->
  forallb is_digit ds = true ->
  no_digit_ahead rest = true ->
  match_frac ("."%char :: ds ++ rest) = Some (ds, rest).
Proof.
  intros Hne Hds Hrest. unfold match_frac. simpl Ascii.eqb. cbv iota.
  rewrite span_digits_app by assumption.
  destruct ds; congruence.
Qed.

Lemma zeros_snoc (k : nat) : zeros k ++ [zero_digit] = zeros (S k).
Proof.
  unfold zeros. induction k; simpl; [reflexivity|].
  simpl in IHk. now rewrite IHk.
Qed.

(** Reading significant digits wrapped in zeros: the zeros go, each
    leading one moving the point by a place. *)
Lemma float_of_literal_canon (neg : bool) (ip frac : text) (exp : Z)
      (d : ascii) (tl : text) (k j : nat) :
  ip ++ frac = zeros k ++ (d :: tl) ++ zeros j ->
  Ascii.eqb d zero_digit = false ->
  Ascii.eqb (last (d :: tl) d) zero_digit = false ->
  float_of_literal neg ip frac exp
  = Finite neg (d :: tl) (Z.of_nat (List.length ip) + exp - Z.of_nat k).
Proof.
  intros Hall Hd Hlast. unfold float_of_literal. rewrite Hall.
  rewrite drop_zeros_zeros.
  change ((d :: tl) ++ zeros j) with (d :: (tl ++ zeros j)).
  rewrite drop_zeros_head by assumption.
  change (d :: (tl ++ zeros j)) with ((d :: tl) ++ zeros j).
  rewrite (strip_trailing_zeros_app (d :: tl) d j) by (auto; discriminate).
  f_equal. rewrite !length_app, length_zeros. lia.
Qed.

Lemma forallb_firstn_skipn {A} (f : A -> bool) (n : nat) (l : list A) :
  forallb f l = true ->
  forallb f (firstn n l) = true /\ forallb f (skipn n l) = true.
Proof.
  intros H. rewrite <- (firstn_skipn n l), forallb_app in H.
  now apply andb_true_iff in H.
Qed.

(** Scientific notation reads back. *)
Lemma match_unsigned_exp (neg : bool) (d : ascii) (tl : text) (decpt : Z)
      (rest : text) :
  forallb is_digit (d :: tl) = true ->
  Ascii.eqb d zero_digit = false ->
  Ascii.eqb (last (d :: tl) d) zero_digit = false ->
  ends_number rest = true ->
  match_unsigned neg (exp_text (d :: tl) decpt ++ rest)
  = Some (Float (Finite neg (d :: tl) decpt), rest).
Proof.
  intros Hds Hd Hlast Hrest.
  pose proof (ends_number_no_digit rest Hrest) as Hnd.
  assert (Hd1 : forallb is_digit [d] = true).
  { simpl in *. apply andb_true_iff in Hds as [-> _]. reflexivity. }
  assert (Htl : forallb is_digit tl = true).
  { simpl in Hds. now apply andb_true_iff in Hds as [_ ->]. }
  unfold exp_text, match_unsigned.
  destruct tl as [|t tl'].
  - reshape ([d] ++ "e"%char :: exponent_text (decpt - 1) ++ rest).
    rewrite match_int_part_digits by side.
    simpl match_frac. cbv iota.
    rewrite match_exp_exponent_text by assumption.
    rewrite (float_of_literal_canon neg [d] [] (decpt - 1) d [] 0 0) by auto.
    repeat f_equal. cbn [List.length]. lia.
  - reshape ([d] ++ "."%char :: (t :: tl')
               ++ "e"%char :: exponent_text (decpt - 1) ++ rest).
    rewrite match_int_part_digits by side.
    rewrite match_frac_digits by side.
    rewrite match_exp_exponent_text by assumption.
    rewrite (float_of_literal_canon neg [d] (t :: tl') (decpt - 1) d (t :: tl') 0 0)
      by (auto; simpl; now rewrite List.app_nil_r).
    repeat f_equal. cbn [List.length]. lia.
Qed.

(** Positional notation reads back. *)
Lemma match_unsigned_fixed (neg : bool) (ds : text) (decpt : Z) (rest : text) :
  float_ok (Finite neg ds decpt) = true ->
  ends_number rest = true ->
  match_unsigned neg (fixed_text ds decpt ++ rest)
  = Some (Float (Finite neg ds decpt), rest).
Proof.
  intros Hok Hrest.
  pose proof (ends_number_no_digit rest Hrest) as Hnd.
  unfold fixed_text, match_unsigned.
  destruct (float_ok_cases _ _ _ Hok) as [[-> ->]|(d & tl & -> & Hds & Hd & Hlast)].
  - reshape (zero_digit :: "."%char :: [zero_digit] ++ rest).
    rewrite match_int_part_zero.
    rewrite match_frac_digits by side.
    now rewrite match_exp_end.
  - destruct (decpt <=? 0) eqn:E0.
    + apply Z.leb_le in E0.
      set (k := Z.to_nat (- decpt)).
      reshape (zero_digit :: "."%char :: (zeros k ++ d :: tl) ++ rest).
      rewrite match_int_part_zero.
      rewrite match_frac_digits; auto.
      * rewrite match_exp_end by assumption.
        rewrite (float_of_literal_canon neg [zero_digit] (zeros k ++ d :: tl) 0
                   d tl (S k) 0) by (auto; simpl; now rewrite List.app_nil_r).
        repeat f_equal. simpl List.length. unfold k. lia.
      * destruct k; discriminate.
      * rewrite forallb_app, is_digit_zeros. exact Hds.
    + apply Z.leb_gt in E0.
      destruct (Z.of_nat (List.length (d :: tl)) <=? decpt) eqn:E1.
      * apply Z.leb_le in E1.
        set (k := (Z.to_nat decpt - List.length (d :: tl))%nat).
        reshape ((d :: tl ++ zeros k) ++ "."%char :: [zero_digit] ++ rest).
        rewrite match_int_part_digits; auto.
        -- rewrite match_frac_digits by (auto; discriminate).
           rewrite match_exp_end by assumption.
           rewrite (float_of_literal_canon neg (d :: tl ++ zeros k) [zero_digit] 0
                      d tl 0 (S k))
             by (auto; simpl; now rewrite <- app_assoc, zeros_snoc).
           repeat f_equal. simpl List.length in *.
           rewrite length_app, length_zeros. unfold k. simpl List.length. lia.
        -- change (d :: tl ++ zeros k) with ((d :: tl) ++ zeros k).
           now rewrite forallb_app, is_digit_zeros, Hds.
      * apply Z.leb_gt in E1.
        remember (Z.to_nat decpt) as n eqn:En.
        assert (Hn : (0 < n < List.length (d :: tl))%nat) by lia.
        destruct (forallb_firstn_skipn is_digit n (d :: tl) Hds) as [Hf Hs].
        destruct n as [|n']; [lia|].
        change (firstn (S n') (d :: tl)) with (d :: firstn n' tl) in *.
        reshape ((d :: firstn n' tl)
                   ++ "."%char :: skipn (S n') (d :: tl) ++ rest).
        rewrite match_int_part_digits by auto.
        rewrite match_frac_digits; auto.
        -- rewrite match_exp_end by assumption.
           rewrite (float_of_literal_canon neg (d :: firstn n' tl)
                      (skipn (S n') (d :: tl)) 0 d tl 0 0)
             by (auto; rewrite List.app_nil_r;
                 exact (firstn_skipn (S n') (d :: tl))).
           repeat f_equal. cbn [List.length] in *. rewrite length_firstn. lia.
        -- intros Hnil. apply (f_equal (@List.length ascii)) in Hnil.
           rewrite length_skipn in Hnil. simpl in Hnil, Hn. lia.
Qed.

(** The text of a finite float starts with a digit, its sign apart. *)
Lemma finite_text_head (neg : bool) (ds : text) (decpt : Z) :
  float_ok (Finite neg ds decpt) = true ->
  exists c r, finite_text ds decpt = c :: r /\ is_digit c = true.
Proof.
  intros Hok. unfold finite_text.
  destruct (float_ok_cases _ _ _ Hok) as [[-> ->]|(d & tl & -> & Hds & Hd & Hlast)].
  - exists zero_digit, (chars ".0"). split; reflexivity.
  - simpl in Hds. apply andb_true_iff in Hds as [Hdd _].
    destruct ((decpt <=? -4) || (16 <? decpt)).
    + simpl. eauto.
    + unfold fixed_text. destruct (decpt <=? 0) eqn:E0; [simpl; eauto|].
      destruct (Z.of_nat (List.length (d :: tl)) <=? decpt); [simpl; eauto|].
      apply Z.leb_gt in E0.
      destruct (Z.to_nat decpt) eqn:En; [lia|]. simpl. eauto.
Qed.

Lemma match_unsigned_finite (neg : bool) (ds : text) (decpt : Z) (rest : text) :
  float_ok (Finite neg ds decpt) = true ->
  ends_number rest = true ->
  match_unsigned neg (finite_text ds decpt ++ rest)
  = Some (Float (Finite neg ds decpt), rest).
Proof.
  intros Hok Hrest. unfold finite_text.
  destruct ((decpt <=? -4) || (16 <? decpt)) eqn:E.
  - destruct (float_ok_cases _ _ _ Hok) as [[-> ->]|(d & tl & -> & Hds & Hd & Hlast)].
    + discriminate.
    + now apply match_unsigned_exp.
  - now apply match_unsigned_fixed.
Qed.

(** [float(repr(x)) == x] through the lexer, for every float. *)
Lemma scan_number_float (f : pyfloat) (rest : text) :
  float_ok f = true ->
  ends_number rest = true ->
  scan_number (floatstr f ++ rest) = Some (Float f, rest).
Proof.
  intros Hok Hrest. destruct f as [|[]|neg ds decpt]; try reflexivity.
  unfold scan_number, floatstr, float_repr.
  pose proof (match_unsigned_finite neg ds decpt rest Hok Hrest) as Hbody.
  destruct neg.
  - simpl app. unfold match_number. simpl Ascii.eqb. cbv iota.
    now rewrite Hbody.
  - simpl app. destruct (finite_text_head _ _ _ Hok) as (c & r & Hcr & Hc).
    rewrite Hcr in *. simpl app in *. unfold match_number.
    now rewrite (digit_not_minus c Hc), Hbody.
Qed.

(** Every number the encoder prints reads back as itself. *)
Lemma scan_number_json_number (n : number) (rest : text) :
  number_ok n = true ->
  number_fits n = true ->
  ends_number rest = true ->
  scan_number (json_number_text n ++ rest) = Some (n, rest).
Proof.
  intros Hok Hfit Hrest. destruct n as [z|f].
  - unfold scan_number. simpl json_number_text.
    now rewrite match_number_int.
  - now apply scan_number_float.
Qed.

End FloatFacts.

(* ================================================================== *)
(** * Facts about dicts, the encoder and the decoder *)

Section DictFacts.

Lemma dict_set_fresh (k : string) (v : pyvalue) (d : dict) :
  (forall k', In k' (map fst d) -> String.eqb k' k = false) ->
  dict_set k v d = d ++ [(k, v)].
Proof.
  induction d as [|[k' v'] d IH]; simpl; intros H; [reflexivity|].
  rewrite (H k') by auto. f_equal. apply IH. auto.
Qed.

Lemma existsb_eqb_false (k : string) (ks : list string) :
  existsb (String.eqb k) ks = false ->
  forall k2, In k2 ks -> String.eqb k k2 = false.
Proof.
  induction ks as [|a ks IH]; simpl; intros H k2 Hin; [contradiction|].
  apply orb_false_iff in H as [Ha Hks].
  destruct Hin as [<-|Hin]; auto.
Qed.

Lemma fold_dict_set_fresh (l acc : dict) :
  unique_keys (map fst l) = true ->
  (forall k' k, In k' (map fst acc) -> In k (map fst l) ->
                String.eqb k' k = false) ->
  fold_left (fun d kv => dict_set (fst kv) (snd kv) d) l acc = acc ++ l.
Proof.
  revert acc. induction l as [|[k v] l IH]; simpl; intros acc Hu Hfresh.
  - now rewrite List.app_nil_r.
  - apply andb_true_iff in Hu as [Hk Hu]. apply negb_true_iff in Hk.
    rewrite dict_set_fresh by (intros k' Hin; apply Hfresh; auto).
    rewrite IH; auto.
    + now rewrite <- app_assoc.
    + intros k' k2 Hin Hin2. rewrite map_app in Hin.
      apply in_app_or in Hin as [Hin|[<-|[]]].
      * apply Hfresh; auto.
      * now apply (existsb_eqb_false k (map fst l)).
Qed.

(** [dict(pairs)] keeps pairs whose keys are all different as they are. *)
Lemma dict_of_pairs_unique (l : dict) :
  unique_keys (map fst l) = true -> dict_of_pairs l = l.
Proof.
  intros Hu. unfold dict_of_pairs.
  rewrite fold_dict_set_fresh; auto. intros k' k [].
Qed.

End DictFacts.

Section JsonFacts.

Lemma escape_char_plain (c : ascii) :
  plain_char c = true -> escape_char c = [c].
Proof.
  unfold plain_char, escape_char. intros H.
  apply andb_true_iff in H as [H Hb]. apply andb_true_iff in H as [Hr Hq].
  apply negb_true_iff in Hb, Hq. rewrite Hq, Hb.
  destruct (Ascii.eqb c "008") eqn:E1;
    [apply Ascii.eqb_eq in E1; subst; discriminate|].
  destruct (Ascii.eqb c "012") eqn:E2;
    [apply Ascii.eqb_eq in E2; subst; discriminate|].
  destruct (Ascii.eqb c "010") eqn:E3;
    [apply Ascii.eqb_eq in E3; subst; discriminate|].
  destruct (Ascii.eqb c "013") eqn:E4;
    [apply Ascii.eqb_eq in E4; subst; discriminate|].
  destruct (Ascii.eqb c "009") eqn:E5;
    [apply Ascii.eqb_eq in E5; subst; discriminate|].
  cbv zeta. now rewrite Hr.
Qed.

Lemma flat_map_escape_plain (s : text) :
  forallb plain_char s = true -> flat_map escape_char s = s.
Proof.
  induction s as [|c s IH]; simpl; intros H; [reflexivity|].
  apply andb_true_iff in H as [Hc Hs].
  now rewrite escape_char_plain, IH.
Qed.

(** A key without escapes is written as it is between quotes. *)
Lemma encode_string_plain (k : string) :
  plain_key k = true -> encode_string k = dquote :: chars k ++ [dquote].
Proof.
  intros H. unfold encode_string. now rewrite flat_map_escape_plain.
Qed.

Lemma scanstring_plain (s rest : text) :
  forallb plain_char s = true ->
  scanstring (s ++ dquote :: rest) = Some (s, rest).
Proof.
  induction s as [|c s IH]; simpl; intros H; [reflexivity|].
  apply andb_true_iff in H as [Hc Hs]. rewrite IH by assumption.
  unfold plain_char in Hc.
  apply andb_true_iff in Hc as [Hc Hb]. apply andb_true_iff in Hc as [Hr Hq].
  apply negb_true_iff in Hb, Hq. rewrite Hq, Hb.
  apply andb_true_iff in Hr as [Hlo _]. apply Nat.leb_le in Hlo.
  destruct (Nat.ltb_spec (nat_of_ascii c) 32); [lia|reflexivity].
Qed.

End JsonFacts.

Section RoundTrip.

Lemma digit_not_brace_ws (c : ascii) :
  is_digit c = true -> Ascii.eqb c "{" = false /\ is_ws c = false.
Proof.
  destruct c as [[] [] [] [] [] [] [] []]; simpl; intros H;
    try discriminate; split; reflexivity.
Qed.

(** A number's text is not empty and starts neither an object nor with
    white space. *)
Lemma json_number_head (n : number) :
  number_ok n = true ->
  exists c r, json_number_text n = c :: r
              /\ Ascii.eqb c "{" = false /\ is_ws c = false.
Proof.
  intros Hok. destruct n as [z|f].
  - unfold json_number_text, decimal.
    destruct z as [|p|p]; simpl Z.to_int; cbv iota.
    + do 2 eexists. repeat split; reflexivity.
    + destruct (to_uint_head p) as (c & tl & -> & Hd & _).
      exists c, tl. split; [reflexivity|]. now apply digit_not_brace_ws.
    + do 2 eexists. repeat split; reflexivity.
  - destruct f as [|[]|neg ds decpt];
      try (do 2 eexists; repeat split; reflexivity).
    unfold json_number_text, floatstr, float_repr.
    destruct (finite_text_head _ _ _ Hok) as (c & r & -> & Hc).
    destruct neg.
    + do 2 eexists. repeat split; reflexivity.
    + exists c, r. split; [reflexivity|]. now apply digit_not_brace_ws.
Qed.

Lemma encode_head (v : pyvalue) :
  value_ok v = true ->
  exists c r, encode_text v = c :: r /\ is_ws c = false.
Proof.
  destruct v as [n|items]; simpl; intros Hok.
  - destruct (json_number_head n Hok) as (c & r & -> & _ & Hws). eauto.
  - eauto.
Qed.

Lemma skip_ws_encode (v : pyvalue) (rest : text) :
  value_ok v = true -> skip_ws (encode_text v ++ rest) = encode_text v ++ rest.
Proof.
  intros Hok. destruct (encode_head v Hok) as (c & r & -> & Hws).
  simpl. now rewrite Hws.
Qed.

(** What follows a value inside an object ends a number. *)
Lemma ends_number_items (l : dict) (rest : text) :
  ends_number (encode_items_text encode_text false l ++ "}"%char :: rest) = true.
Proof. destruct l as [|[k x] l]; reflexivity. Qed.

(** One turn of [JSONObject]'s loop on a key without escapes. *)
Lemma JSONObject_pair (fuel : nat) (key V R : text) (x : pyvalue)
      (pairs : list (string * pyvalue)) :
  forallb plain_char key = true ->
  scan_once fuel (skip_ws V) = Some (x, R) ->
  JSONObject (S fuel) (key ++ dquote :: ":"%char :: V) pairs
  = match skip_ws R with
    | c3 :: s4 =>
        if Ascii.eqb c3 "}"
        then Some (Dict (dict_of_pairs (pairs ++ [(string_of_list_ascii key, x)])), s4)
        else if Ascii.eqb c3 ","
             then match skip_ws s4 with
                  | c5 :: s5 =>
                      if Ascii.eqb c5 dquote
                      then JSONObject fuel s5
                             (pairs ++ [(string_of_list_ascii key, x)])
                      else None
                  | [] => None
                  end
             else None
    | [] => None
    end.
Proof.
  intros Hkey Hx. cbn [JSONObject].
  rewrite scanstring_plain by assumption.
  change (skip_ws (":"%char :: V)) with (":"%char :: V).
  change (Ascii.eqb ":" ":") with true. cbv iota.
  rewrite Hx. reflexivity.
Qed.

(** The loop of [JSONObject] reads the items of an object back, given
    that each value reads back. *)
Lemma JSONObject_items (l : dict) :
  Forall (fun kv => reads_back (snd kv)) l ->
  forallb (fun kv => plain_key (fst kv) && value_ok (snd kv)) l = true ->
  forall k x pairs fuel rest,
    plain_key k = true ->
    value_ok x = true ->
    reads_back x ->
    (S (size x + items_size l) <= fuel)%nat ->
    JSONObject fuel
      (chars k ++ dquote :: chars ": " ++ encode_text x
         ++ encode_items_text encode_text false l ++ "}"%char :: rest) pairs
    = Some (Dict (dict_of_pairs (pairs ++ (k, x) :: l)), rest).
Proof.
  induction l as [|[k2 x2] l IH]; intros Hall Hok k x pairs fuel rest Hk Hx Hrb Hfuel;
    (destruct fuel as [|fuel]; [lia|]).
  - change (chars ": " ++ ?t) with (":"%char :: " "%char :: t).
    rewrite (JSONObject_pair fuel (chars k)
               (" "%char :: encode_text x ++ encode_items_text encode_text false [] ++ "}"%char :: rest)
               ("}"%char :: rest) x pairs Hk).
    + unfold chars at 1. now rewrite string_of_list_ascii_of_string.
    + change (skip_ws (" "%char :: ?t)) with (skip_ws t).
      cbn [encode_items_text app]. rewrite skip_ws_encode by assumption.
      apply Hrb; [simpl in Hfuel; lia|reflexivity].
  - inversion Hall as [|? ? Hrb2 Hall2]; subst.
    cbn [forallb fst snd] in Hok.
    apply andb_true_iff in Hok as [Hkx Hok].
    apply andb_true_iff in Hkx as [Hk2 Hx2].
    cbn [items_size fold_right snd] in Hfuel. fold (items_size l) in Hfuel.
    change (chars ": " ++ ?t) with (":"%char :: " "%char :: t).
    rewrite (JSONObject_pair fuel (chars k)
               (" "%char :: encode_text x
                  ++ encode_items_text encode_text false ((k2, x2) :: l) ++ "}"%char :: rest)
               (encode_items_text encode_text false ((k2, x2) :: l) ++ "}"%char :: rest)
               x pairs Hk).
    + cbn [encode_items_text]. rewrite (encode_string_plain k2 Hk2).
      replace ((chars ", " ++ (dquote :: chars k2 ++ [dquote]) ++ chars ": "
                  ++ encode_text x2 ++ encode_items_text encode_text false l) ++ "}"%char :: rest)
        with (","%char :: " "%char :: dquote
                :: (chars k2 ++ dquote :: chars ": " ++ encode_text x2
                      ++ encode_items_text encode_text false l ++ "}"%char :: rest))
        by (simpl; rewrite <- !app_assoc; simpl; rewrite <- !app_assoc; reflexivity).
      change (skip_ws (","%char :: ?t)) with (","%char :: t).
      cbv iota. change (Ascii.eqb "," "}") with false.
      change (Ascii.eqb "," ",") with true. cbv iota.
      change (skip_ws (" "%char :: dquote :: ?t)) with (dquote :: t).
      cbv iota. change (Ascii.eqb dquote dquote) with true. cbv iota.
      unfold chars at 1. rewrite string_of_list_ascii_of_string.
      fold (chars k2).
      rewrite IH; auto; [|lia].
      now rewrite <- app_assoc.
    + change (skip_ws (" "%char :: ?t)) with (skip_ws t).
      rewrite skip_ws_encode by assumption.
      apply Hrb; [lia|apply ends_number_items].
Qed.

End RoundTrip.

Section LoadsDumps.

Lemma items_read_back (items : dict) :
  Forall (fun kv => value_ok (snd kv) = true -> ints_fit (snd kv) = true ->
                    reads_back (snd kv)) items ->
  forallb (fun kv => plain_key (fst kv) && value_ok (snd kv)) items = true ->
  forallb (fun kv => ints_fit (snd kv)) items = true ->
  Forall (fun kv => reads_back (snd kv)) items.
Proof.
  induction items as [|[k x] l IHl]; intros IH Hitems Hfit; constructor.
  - inversion IH; subst. cbn [forallb fst snd] in Hitems, Hfit.
    apply andb_true_iff in Hitems as [Hkx _].
    apply andb_true_iff in Hkx as [_ Hx].
    apply andb_true_iff in Hfit as [Hfx _]. auto.
  - inversion IH; subst. cbn [forallb] in Hitems, Hfit.
    apply andb_true_iff in Hitems as [_ Hl].
    apply andb_true_iff in Hfit as [_ Hfl]. auto.
Qed.

(** [_scan_once] reads back the text of a value whose ints are under the
    cap, given fuel for every node of the value. *)
Lemma scan_once_encode (v : pyvalue) :
  value_ok v = true -> ints_fit v = true -> reads_back v.
Proof.
  induction v as [n|items IH] using pyvalue_ind;
    intros Hok Hfit fuel rest Hfuel Hrest;
    (destruct fuel as [|fuel]; [simpl in Hfuel; lia|]).
  - pose proof (scan_number_json_number n rest Hok Hfit Hrest) as Hs.
    destruct (json_number_head n Hok) as (c & r & E & Hb & _).
    cbn [encode_text scan_once]. rewrite E in *. simpl app in *.
    cbv iota. now rewrite Hb, Hs.
  - cbn [value_ok] in Hok. apply andb_true_iff in Hok as [Hitems Huniq].
    cbn [ints_fit] in Hfit.
    pose proof (items_read_back items IH Hitems Hfit) as Hall.
    destruct items as [|[k x] l]; [reflexivity|].
    inversion Hall as [|? ? Hrb Hall']; subst.
    pose proof Hitems as Hitems'.
    cbn [forallb fst snd] in Hitems'.
    apply andb_true_iff in Hitems' as [Hkx Hl].
    apply andb_true_iff in Hkx as [Hk Hx].
    cbn [encode_text encode_items_text]. rewrite (encode_string_plain k Hk).
    replace (("{"%char :: ([] ++ (dquote :: chars k ++ [dquote]) ++ chars ": "
                ++ encode_text x ++ encode_items_text encode_text false l)
                ++ ["}"%char]) ++ rest)
      with ("{"%char :: dquote
              :: (chars k ++ dquote :: chars ": " ++ encode_text x
                    ++ encode_items_text encode_text false l ++ "}"%char :: rest))
      by (simpl; rewrite <- !app_assoc; simpl; rewrite <- !app_assoc; reflexivity).
    cbn [scan_once]. change (Ascii.eqb "{" "{") with true. cbv iota.
    change (skip_ws (dquote :: ?t)) with (dquote :: t). cbv iota.
    change (Ascii.eqb dquote "}") with false.
    change (Ascii.eqb dquote dquote) with true. cbv iota.
    cbn [size fold_right snd] in Hfuel. fold (items_size l) in Hfuel.
    rewrite (JSONObject_items l Hall' Hl k x [] fuel rest Hk Hx Hrb) by lia.
    cbn [app]. now rewrite dict_of_pairs_unique.
Qed.

Lemma items_size_le_length (l : dict) (first : bool) :
  Forall (fun kv => (size (snd kv) <= List.length (encode_text (snd kv)))%nat) l ->
  (items_size l <= List.length (encode_items_text encode_text first l))%nat.
Proof.
  revert first. induction l as [|[k x] l IH]; intros first Hall; [simpl; lia|].
  inversion Hall as [|? ? Hx Hl]; subst. specialize (IH false Hl).
  cbn [items_size fold_right snd encode_items_text] in *. fold (items_size l).
  unfold encode_string. rewrite !length_app. cbn [List.length].
  rewrite !length_app. cbn [List.length chars list_ascii_of_string].
  cbn [snd] in Hx. lia.
Qed.

(** The encoder writes at least a character per node. *)
Lemma size_le_length (v : pyvalue) :
  value_ok v = true -> (size v <= List.length (encode_text v))%nat.
Proof.
  induction v as [n|items IH] using pyvalue_ind; intros Hok.
  - destruct (json_number_head n Hok) as (c & r & E & _).
    cbn [encode_text size]. rewrite E. simpl. lia.
  - cbn [value_ok] in Hok. apply andb_true_iff in Hok as [Hitems _].
    assert (Hall : Forall (fun kv => (size (snd kv)
                                      <= List.length (encode_text (snd kv)))%nat) items).
    { induction items as [|[k x] l IHl]; constructor.
      - inversion IH; subst. cbn [forallb fst snd] in Hitems.
        apply andb_true_iff in Hitems as [Hkx _].
        apply andb_true_iff in Hkx as [_ Hx]. auto.
      - inversion IH; subst. cbn [forallb] in Hitems.
        apply andb_true_iff in Hitems as [_ Hl]. auto. }
    pose proof (items_size_le_length items true Hall) as Hle.
    cbn [encode_text size]. fold (items_size items).
    cbn [List.length]. rewrite length_app. cbn [List.length]. lia.
Qed.

Lemma encode_items_fits (l : dict) (first : bool) :
  Forall (fun kv => ints_fit (snd kv) = true ->
                    encode (snd kv) = Return (encode_text (snd kv))) l ->
  forallb (fun kv => ints_fit (snd kv)) l = true ->
  encode_items encode first l
  = Return (encode_items_text encode_text first l).
Proof.
  revert first. induction l as [|[k x] l IH]; intros first Hall Hfit;
    [reflexivity|].
  inversion Hall as [|? ? Hx Hl]; subst. cbn [snd] in Hx.
  cbn [forallb snd] in Hfit. apply andb_true_iff in Hfit as [Hfx Hfl].
  cbn [encode_items encode_items_text].
  rewrite (Hx Hfx). cbn [rbind snd]. rewrite (IH false Hl Hfl). reflexivity.
Qed.

(** The encoder returns the text of a value whose ints are all under the
    cap. *)
Lemma encode_fits (v : pyvalue) :
  ints_fit v = true -> encode v = Return (encode_text v).
Proof.
  induction v as [n|items IH] using pyvalue_ind; intros Hfit.
  - destruct n as [z|f]; [|reflexivity].
    cbn in Hfit |- *. unfold int_repr. now rewrite Hfit.
  - cbn [encode encode_text ints_fit] in *.
    now rewrite (encode_items_fits items true IH Hfit).
Qed.

Lemma encode_items_raises (l : dict) (first : bool) :
  Forall (fun kv => ints_fit (snd kv) = false ->
                    encode (snd kv) = Raise ValueError) l ->
  forallb (fun kv => ints_fit (snd kv)) l = false ->
  encode_items encode first l = Raise ValueError.
Proof.
  revert first. induction l as [|[k x] l IH]; intros first Hall Hfit;
    [discriminate|].
  inversion Hall as [|? ? Hx Hl]; subst. cbn [snd] in Hx.
  cbn [forallb snd] in Hfit. cbn [encode_items].
  destruct (ints_fit x) eqn:Hfx.
  - rewrite (encode_fits x Hfx). cbn [rbind].
    rewrite (IH false Hl Hfit). reflexivity.
  - rewrite (Hx eq_refl). reflexivity.
Qed.

(** The encoder raises [ValueError] on a value that holds an int over
    the cap. *)
Lemma encode_raises (v : pyvalue) :
  ints_fit v = false -> encode v = Raise ValueError.
Proof.
  induction v as [n|items IH] using pyvalue_ind; intros Hfit.
  - destruct n as [z|f]; [|discriminate].
    cbn in Hfit |- *. unfold int_repr. now rewrite Hfit.
  - cbn [encode ints_fit] in *.
    now rewrite (encode_items_raises items true IH Hfit).
Qed.

(** [json.dumps] returns exactly on the values whose ints are under the
    cap, and raises [ValueError] on the others. *)
Lemma json_dumps_result (v : pyvalue) :
  json_dumps v
  = if ints_fit v
    then Return (string_of_list_ascii (encode_text v))
    else Raise ValueError.
Proof.
  unfold json_dumps. destruct (ints_fit v) eqn:Hfit.
  - now rewrite encode_fits.
  - now rewrite encode_raises.
Qed.

(** The text of a well-formed value whose ints are under the cap decodes
    to the value. *)
Lemma json_loads_text (v : pyvalue) :
  value_ok v = true ->
  ints_fit v = true ->
  json_loads (string_of_list_ascii (encode_text v)) = Some v.
Proof.
  intros Hok Hfit. unfold json_loads, chars.
  rewrite list_ascii_of_string_of_list_ascii.
  rewrite <- (List.app_nil_r (encode_text v)).
  rewrite skip_ws_encode by assumption.
  rewrite (scan_once_encode v Hok Hfit) by
    (try reflexivity; rewrite List.app_nil_r;
     pose proof (size_le_length v Hok); lia).
  reflexivity.
Qed.

(** [json.loads(json.dumps(v)) == v] whenever [json.dumps] returns. *)
Lemma json_loads_dumps (v : pyvalue) (s : string) :
  value_ok v = true ->
  json_dumps v = Return s ->
  json_loads s = Some v.
Proof.
  intros Hok Hs. rewrite json_dumps_result in Hs.
  destruct (ints_fit v) eqn:Hfit; [|discriminate].
  injection Hs as <-. now apply json_loads_text.
Qed.

End LoadsDumps.

(* ================================================================== *)
(** * Facts about the controller *)

Section ReprFacts.

Lemma int_repr_fits (z : Z) :
  int_fits z = true -> int_repr z = Return (decimal z).
Proof. intros H. unfold int_repr. now rewrite H. Qed.

Lemma int_repr_raises (z : Z) :
  int_fits z = false -> int_repr z = Raise ValueError.
Proof. intros H. unfold int_repr. now rewrite H. Qed.

Lemma number_repr_fits (n : number) :
  number_fits n = true -> number_repr n = Return (number_text n).
Proof. destruct n; simpl; [apply int_repr_fits|reflexivity]. Qed.

Lemma join_reprs_fits (l : list number) (first : bool) :
  forallb number_fits l = true ->
  join_reprs first l = Return (join_texts first l).
Proof.
  revert first. induction l as [|n l IH]; intros first H; [reflexivity|].
  cbn [forallb] in H. apply andb_true_iff in H as [Hn Hl].
  cbn [join_reprs join_texts]. rewrite (number_repr_fits n Hn). cbn [rbind].
  now rewrite (IH false Hl).
Qed.

Lemma list_repr_fits (l : list number) :
  forallb number_fits l = true -> list_repr l = Return (list_text l).
Proof.
  intros H. unfold list_repr, list_text. now rewrite join_reprs_fits.
Qed.

(** The digits 0 to 6 are under the cap. *)
Lemma small_int_fits (z : Z) : 0 <= z <= 6 -> int_fits z = true.
Proof.
  intros H.
  assert (Hc : z = 0 \/ z = 1 \/ z = 2 \/ z = 3 \/ z = 4 \/ z = 5 \/ z = 6)
    by lia.
  destruct Hc as [->|[->|[->|[->|[->|[->| ->]]]]]]; reflexivity.
Qed.

End ReprFacts.

Section CapFacts.

Lemma pow10_iter (n : nat) : Nat.iter n (Z.mul 10) 1 = 10 ^ Z.of_nat n.
Proof.
  induction n as [|n IH]; [reflexivity|].
  rewrite Nat.iter_succ, IH, Nat2Z.inj_succ, Z.pow_succ_r by lia.
  reflexivity.
Qed.

(** The numeral of [huge] is a 1 and 4300 zeros. *)
Lemma huge_to_int :
  Z.to_int huge
  = Decimal.Pos (Decimal.D1 (Nat.iter 4300 Decimal.D0 Decimal.Nil)).
Proof.
  assert (E : huge
              = Z.of_int (Decimal.Pos
                            (Decimal.app (Decimal.D1 Decimal.Nil)
                               (Nat.iter 4300 Decimal.D0 Decimal.Nil)))).
  { unfold huge, Z.of_int. rewrite DecimalZ.of_uint_iter_D0.
    change (Z.of_uint (Decimal.D1 Decimal.Nil)) with 1.
    rewrite pow10_iter. reflexivity. }
  rewrite E, DecimalZ.to_of. reflexivity.
Qed.

(** It has 4301 digits, one over the cap. *)
Lemma huge_over_cap : int_fits huge = false.
Proof.
  unfold int_fits, digit_count. rewrite huge_to_int. cbn [Decimal.abs].
  rewrite length_chars_of_uint. cbn [Decimal.nb_digits].
  rewrite nb_digits_iter_D0. reflexivity.
Qed.

Lemma huge_above_six : 6 < huge.
Proof.
  assert (H : 10 ^ 1 <= huge) by (apply Z.pow_le_mono_r; lia).
  change (10 ^ 1) with 10 in H. lia.
Qed.

(** The conversion of [huge] raises, and so does the encoder on a dict
    that holds it. *)
Example int_repr_cap :
  int_repr huge = Raise ValueError
  /\ json_dumps (Dict [("a", Num (Int huge))]%string) = Raise ValueError.
Proof.
  split; [apply int_repr_raises, huge_over_cap|].
  rewrite json_dumps_result. cbn [ints_fit forallb snd number_fits].
  now rewrite huge_over_cap.
Qed.

End CapFacts.

Section SendFacts.
Local Open Scope py_scope.

(** [_send]: either the stamped payload is encoded, written and counted,
    or [json.dumps] raises and nothing has happened. *)
Lemma send_result (payload : dict) (w : world) :
  _send payload w
  = let stamped := dict_set "address" (Num (Int 1))
                     (dict_set "seq" (Num (Int (_seq (arm w)))) payload) in
    if ints_fit (Dict stamped)
    then (Return tt,
          {| arm := {| participant := participant (arm w);
                       cmd_writer := cmd_writer (arm w) ++ [sample stamped];
                       _seq := _seq (arm w) + 1 |};
             stdout := stdout w |})
    else (Raise ValueError, w).
Proof.
  unfold _send, bind, get_seq, eval. rewrite json_dumps_result. cbv zeta.
  destruct (ints_fit _); reflexivity.
Qed.

Lemma getitem_joint_name (joint_id : Z) :
  0 <= joint_id <= 6 ->
  exists name,
    nth_error JOINT_NAMES (Z.to_nat joint_id) = Some name
    /\ forall w, getitem JOINT_NAMES joint_id w = (Return name, w).
Proof.
  intros Hj.
  assert (Hc : joint_id = 0 \/ joint_id = 1 \/ joint_id = 2 \/ joint_id = 3
               \/ joint_id = 4 \/ joint_id = 5 \/ joint_id = 6) by lia.
  destruct Hc as [->|[->|[->|[->|[->|[->| ->]]]]]];
    eexists; split; reflexivity.
Qed.

(** [move_joint] in range, every int under the cap: the send, then the
    line that names the joint. *)
Lemma move_joint_sends (joint_id : Z) (angle : number) (delay_ms : Z) (w : world) :
  0 <= joint_id <= 6 ->
  number_fits angle && int_fits delay_ms && int_fits (_seq (arm w)) = true ->
  exists name,
    nth_error JOINT_NAMES (Z.to_nat joint_id) = Some name
    /\ move_joint joint_id angle delay_ms w
       = (Return tt,
          sent w [ ("funcode", Num (Int 1));
                   ("data", Dict [ ("id", Num (Int joint_id));
                                   ("angle", Num angle);
                                   ("delay_ms", Num (Int delay_ms)) ]);
                   ("seq", Num (Int (_seq (arm w))));
                   ("address", Num (Int 1)) ]%string
            (string_of_list_ascii
               (chars "Joint " ++ decimal joint_id ++ chars " ("
                  ++ chars name ++ chars ") -> " ++ number_text angle
                  ++ chars " deg"))).
Proof.
  intros Hj Hfit.
  destruct (getitem_joint_name joint_id Hj) as (name & Hname & Hget).
  exists name. split; [exact Hname|].
  unfold move_joint.
  replace ((joint_id <? 0) || (6 <? joint_id)) with false by lia.
  unfold bind at 1. rewrite send_result. stamped_fits.
  rewrite (small_int_fits joint_id Hj). cbn [andb]. rewrite Hfit.
  apply andb_true_iff in Hfit as [Hfit _].
  apply andb_true_iff in Hfit as [Ha _].
  unfold bind, eval.
  rewrite (int_repr_fits joint_id (small_int_fits joint_id Hj)), Hget.
  rewrite (number_repr_fits angle Ha). reflexivity.
Qed.

Lemma move_joint_sends_raises
      (joint_id : Z) (angle : number) (delay_ms : Z) (w : world) :
  0 <= joint_id <= 6 ->
  number_fits angle && int_fits delay_ms && int_fits (_seq (arm w)) = false ->
  move_joint joint_id angle delay_ms w = (Raise ValueError, w).
Proof.
  intros Hj Hfit. unfold move_joint.
  replace ((joint_id <? 0) || (6 <? joint_id)) with false by lia.
  unfold bind at 1. rewrite send_result. stamped_fits.
  rewrite (small_int_fits joint_id Hj). cbn [andb]. now rewrite Hfit.
Qed.

Lemma move_joint_rejects (joint_id : Z) (angle : number) (delay_ms : Z) (w : world) :
  joint_id < 0 \/ 6 < joint_id ->
  int_fits joint_id = true ->
  move_joint joint_id angle delay_ms w
  = (Return tt,
     {| arm := arm w;
        stdout := stdout w
                    ++ [string_of_list_ascii
                          (chars "Error: joint_id must be 0-6, got "
                             ++ decimal joint_id)] |}).
Proof.
  intros Hj Hfit. unfold move_joint.
  replace ((joint_id <? 0) || (6 <? joint_id)) with true by lia.
  unfold bind, eval. now rewrite (int_repr_fits joint_id Hfit).
Qed.

Lemma move_joint_rejects_raises
      (joint_id : Z) (angle : number) (delay_ms : Z) (w : world) :
  joint_id < 0 \/ 6 < joint_id ->
  int_fits joint_id = false ->
  move_joint joint_id angle delay_ms w = (Raise ValueError, w).
Proof.
  intros Hj Hfit. unfold move_joint.
  replace ((joint_id <? 0) || (6 <? joint_id)) with true by lia.
  unfold bind, eval. now rewrite (int_repr_raises joint_id Hfit).
Qed.

Lemma seven_items {A} (l : list A) :
  List.length l = 7%nat ->
  exists a0 a1 a2 a3 a4 a5 a6, l = [a0; a1; a2; a3; a4; a5; a6].
Proof.
  intros H.
  do 7 (destruct l as [|? l]; [discriminate|]).
  destruct l; [|discriminate]. repeat eexists.
Qed.

Lemma move_all_joints_sends (a0 a1 a2 a3 a4 a5 a6 : number) (w : world) :
  forallb number_fits [a0; a1; a2; a3; a4; a5; a6]
    && int_fits (_seq (arm w)) = true ->
  move_all_joints [a0; a1; a2; a3; a4; a5; a6] w
  = (Return tt,
     sent w [ ("funcode", Num (Int 2));
              ("data", Dict [ ("mode", Num (Int 1));
                              ("angle0", Num a0);
                              ("angle1", Num a1);
                              ("angle2", Num a2);
                              ("angle3", Num a3);
                              ("angle4", Num a4);
                              ("angle5", Num a5);
                              ("angle6", Num a6) ]);
              ("seq", Num (Int (_seq (arm w))));
              ("address", Num (Int 1)) ]%string
       (string_of_list_ascii
          (chars "All joints -> " ++ list_text [a0; a1; a2; a3; a4; a5; a6]))).
Proof.
  intros Hfit. unfold move_all_joints.
  change (negb (Z.of_nat (List.length [a0; a1; a2; a3; a4; a5; a6]) =? 7))
    with false. cbv iota.
  change (getitem [a0; a1; a2; a3; a4; a5; a6] 0) with (@ret number a0).
  change (getitem [a0; a1; a2; a3; a4; a5; a6] 1) with (@ret number a1).
  change (getitem [a0; a1; a2; a3; a4; a5; a6] 2) with (@ret number a2).
  change (getitem [a0; a1; a2; a3; a4; a5; a6] 3) with (@ret number a3).
  change (getitem [a0; a1; a2; a3; a4; a5; a6] 4) with (@ret number a4).
  change (getitem [a0; a1; a2; a3; a4; a5; a6] 5) with (@ret number a5).
  change (getitem [a0; a1; a2; a3; a4; a5; a6] 6) with (@ret number a6).
  unfold bind, ret. rewrite send_result. stamped_fits.
  cbn [forallb] in Hfit. rewrite ?andb_true_r in Hfit. rewrite Hfit.
  apply andb_true_iff in Hfit as [Hall _].
  unfold eval. rewrite list_repr_fits; [reflexivity|].
  cbn [forallb]. now rewrite ?andb_true_r.
Qed.

Lemma move_all_joints_sends_raises (a0 a1 a2 a3 a4 a5 a6 : number) (w : world) :
  forallb number_fits [a0; a1; a2; a3; a4; a5; a6]
    && int_fits (_seq (arm w)) = false ->
  move_all_joints [a0; a1; a2; a3; a4; a5; a6] w = (Raise ValueError, w).
Proof.
  intros Hfit. unfold move_all_joints.
  change (negb (Z.of_nat (List.length [a0; a1; a2; a3; a4; a5; a6]) =? 7))
    with false. cbv iota.
  change (getitem [a0; a1; a2; a3; a4; a5; a6] 0) with (@ret number a0).
  change (getitem [a0; a1; a2; a3; a4; a5; a6] 1) with (@ret number a1).
  change (getitem [a0; a1; a2; a3; a4; a5; a6] 2) with (@ret number a2).
  change (getitem [a0; a1; a2; a3; a4; a5; a6] 3) with (@ret number a3).
  change (getitem [a0; a1; a2; a3; a4; a5; a6] 4) with (@ret number a4).
  change (getitem [a0; a1; a2; a3; a4; a5; a6] 5) with (@ret number a5).
  change (getitem [a0; a1; a2; a3; a4; a5; a6] 6) with (@ret number a6).
  unfold bind, ret. rewrite send_result. stamped_fits.
  cbn [forallb] in Hfit. rewrite ?andb_true_r in Hfit. now rewrite Hfit.
Qed.

Lemma move_all_joints_rejects (angles : list number) (w : world) :
  List.length angles <> 7%nat ->
  move_all_joints angles w
  = (Return tt,
     {| arm := arm w;
        stdout := stdout w
                    ++ [string_of_list_ascii
                          (chars "Error: expected 7 angles, got "
                             ++ decimal (Z.of_nat (List.length angles)))] |}).
Proof.
  intros Hlen. unfold move_all_joints.
  replace (Z.of_nat (List.length angles) =? 7) with false by lia.
  reflexivity.
Qed.

Lemma enable_joints_sends (mode : Z) (w : world) :
  int_fits mode && int_fits (_seq (arm w)) = true ->
  enable_joints mode w
  = (Return tt,
     sent w [ ("funcode", Num (Int 5));
              ("data", Dict [ ("mode", Num (Int mode)) ]);
              ("seq", Num (Int (_seq (arm w))));
              ("address", Num (Int 1)) ]%string
       (string_of_list_ascii
          (chars "Joints "
             ++ (if mode =? 0 then chars "enabled" else chars "disabled")))).
Proof.
  intros Hfit. unfold enable_joints, bind. rewrite send_result. stamped_fits.
  now rewrite Hfit.
Qed.

Lemma enable_joints_raises (mode : Z) (w : world) :
  int_fits mode && int_fits (_seq (arm w)) = false ->
  enable_joints mode w = (Raise ValueError, w).
Proof.
  intros Hfit. unfold enable_joints, bind. rewrite send_result. stamped_fits.
  now rewrite Hfit.
Qed.

Lemma go_to_zero_sends (w : world) :
  int_fits (_seq (arm w)) = true ->
  go_to_zero w
  = (Return tt,
     sent w [ ("funcode", Num (Int 7));
              ("seq", Num (Int (_seq (arm w))));
              ("address", Num (Int 1)) ]%string
       "Moving to zero position...").
Proof.
  intros Hfit. unfold go_to_zero, bind. rewrite send_result. stamped_fits.
  now rewrite Hfit.
Qed.

Lemma go_to_zero_raises (w : world) :
  int_fits (_seq (arm w)) = false ->
  go_to_zero w = (Raise ValueError, w).
Proof.
  intros Hfit. unfold go_to_zero, bind. rewrite send_result. stamped_fits.
  now rewrite Hfit.
Qed.

End SendFacts.

Section CallFacts.
Local Open Scope py_scope.

(** A sample that holds the text of a well-formed dict whose ints are
    under the cap decodes to the dict. *)
Lemma decoded_sample (items : dict) :
  value_ok (Dict items) = true ->
  ints_fit (Dict items) = true ->
  decoded (sample items) = Some (Dict items).
Proof.
  intros Hok Hfit. unfold decoded, sample. cbn [data_].
  now apply json_loads_text.
Qed.

Lemma msg_field_sample (k : string) (items : dict) :
  value_ok (Dict items) = true ->
  ints_fit (Dict items) = true ->
  msg_field k (sample items) = dict_get k items.
Proof. intros Hok Hfit. unfold msg_field. now rewrite decoded_sample. Qed.

Lemma published_by_sent {A} (m : M A) (w : world) (r : result A)
      (items : dict) (line : string) :
  m w = (r, sent w items line) ->
  published_by m w = [sample items].
Proof.
  intros H. unfold published_by. rewrite H. simpl.
  rewrite skipn_app, skipn_all, Nat.sub_diag. reflexivity.
Qed.

Lemma published_by_same_arm {A} (m : M A) (w : world) :
  arm (snd (m w)) = arm w -> published_by m w = [].
Proof. intros H. unfold published_by. rewrite H. apply skipn_all. Qed.

(** A call that passes validation with every int under the cap returns,
    writes one sample and bumps the counter; the sample holds a dict that
    carries the counter and the address, well-formed when the floats
    are. *)
Lemma call_sends (c : command) (w : world) :
  sends c = true ->
  call_fits c w = true ->
  exists items line,
    call c w = (Return tt, sent w items line)
    /\ (args_ok c = true -> value_ok (Dict items) = true)
    /\ ints_fit (Dict items) = true
    /\ dict_get "seq" items = Some (Num (Int (_seq (arm w))))
    /\ dict_get "address" items = Some (Num (Int 1)).
Proof.
  intros Hs Hfit. destruct c as [j a d|angles|mode|]; simpl in Hs;
    cbn [call_fits] in Hfit.
  - rewrite Hs in Hfit.
    apply andb_true_iff in Hs as [H0 H6].
    apply Z.leb_le in H0. apply Z.leb_le in H6.
    destruct (move_joint_sends j a d w (conj H0 H6) Hfit)
      as (name & _ & Hcall).
    do 2 eexists. split; [exact Hcall|].
    split; [|split; [|split; reflexivity]].
    + simpl args_ok. intros Ha. cbn. now rewrite Ha.
    + stamped_fits. rewrite (small_int_fits j (conj H0 H6)). cbn [andb].
      exact Hfit.
  - rewrite Hs in Hfit. apply Nat.eqb_eq in Hs.
    destruct (seven_items angles Hs) as (a0 & a1 & a2 & a3 & a4 & a5 & a6 & ->).
    do 2 eexists. split; [apply (move_all_joints_sends _ _ _ _ _ _ _ w Hfit)|].
    split; [|split; [|split; reflexivity]].
    + intros Ha. cbn in Ha |- *.
      repeat (apply andb_true_iff in Ha as [?H Ha]).
      repeat match goal with H : number_ok _ = true |- _ => rewrite H; clear H end.
      reflexivity.
    + stamped_fits. cbn [forallb] in Hfit. rewrite ?andb_true_r in Hfit.
      exact Hfit.
  - do 2 eexists. split; [apply (enable_joints_sends mode w Hfit)|].
    split; [reflexivity|split; [|split; reflexivity]].
    stamped_fits. exact Hfit.
  - do 2 eexists. split; [apply (go_to_zero_sends w Hfit)|].
    split; [reflexivity|split; [|split; reflexivity]].
    stamped_fits. exact Hfit.
Qed.

(** A call that fails validation, with the int it has to print under the
    cap, returns, prints one line and leaves the controller as it was. *)
Lemma call_rejects (c : command) (w : world) :
  sends c = false ->
  call_fits c w = true ->
  exists line,
    call c w = (Return tt, {| arm := arm w; stdout := stdout w ++ [line] |}).
Proof.
  intros Hs Hfit. destruct c as [j a d|angles|mode|]; simpl in Hs;
    cbn [call_fits] in Hfit; try discriminate.
  - rewrite Hs in Hfit. eexists. apply move_joint_rejects; [|exact Hfit].
    apply andb_false_iff in Hs as [H|H]; apply Z.leb_gt in H; lia.
  - eexists. apply move_all_joints_rejects. now apply Nat.eqb_neq in Hs.
Qed.

(** A call that has to convert an int over the cap raises [ValueError],
    and nothing has happened. *)
Lemma call_raises (c : command) (w : world) :
  call_fits c w = false ->
  call c w = (Raise ValueError, w).
Proof.
  intros Hfit. destruct c as [j a d|angles|mode|]; cbn [call_fits call] in *.
  - destruct ((0 <=? j) && (j <=? 6)) eqn:Hs.
    + apply andb_true_iff in Hs as [H0 H6].
      apply Z.leb_le in H0. apply Z.leb_le in H6.
      now apply move_joint_sends_raises.
    + apply move_joint_rejects_raises; [|exact Hfit].
      apply andb_false_iff in Hs as [H|H]; apply Z.leb_gt in H; lia.
  - destruct (List.length angles =? 7)%nat eqn:Hs; [|discriminate].
    apply Nat.eqb_eq in Hs.
    destruct (seven_items angles Hs) as (a0 & a1 & a2 & a3 & a4 & a5 & a6 & ->).
    now apply move_all_joints_sends_raises.
  - now apply enable_joints_raises.
  - now apply go_to_zero_raises.
Qed.

(** The three ways of a call. *)
Lemma call_cases (c : command) (w : world) :
  (sends c = true /\ call_fits c w = true
   /\ exists items line,
        call c w = (Return tt, sent w items line)
        /\ (args_ok c = true -> value_ok (Dict items) = true)
        /\ ints_fit (Dict items) = true
        /\ dict_get "seq" items = Some (Num (Int (_seq (arm w))))
        /\ dict_get "address" items = Some (Num (Int 1)))
  \/ (sends c = false /\ call_fits c w = true
      /\ exists line,
           call c w
           = (Return tt, {| arm := arm w; stdout := stdout w ++ [line] |}))
  \/ (call_fits c w = false /\ call c w = (Raise ValueError, w)).
Proof.
  destruct (call_fits c w) eqn:Hfit.
  - destruct (sends c) eqn:Hs.
    + left. repeat split; auto. now apply call_sends.
    + right. left. repeat split; auto. now apply call_rejects.
  - right. right. split; [reflexivity|]. now apply call_raises.
Qed.

(** The counter after a call: one more for each sample the call wrote. *)
Lemma call_seq (c : command) (w : world) :
  _seq (arm (snd (call c w)))
  = _seq (arm w) + Z.of_nat (List.length (published_by (call c) w)).
Proof.
  destruct (call_cases c w)
    as [(_ & _ & items & line & Hc & _)|[(_ & _ & line & Hc)|(_ & Hc)]].
  - rewrite (published_by_sent _ _ _ _ _ Hc), Hc. reflexivity.
  - rewrite published_by_same_arm; rewrite Hc; simpl; [lia|reflexivity].
  - rewrite published_by_same_arm; rewrite Hc; simpl; [lia|reflexivity].
Qed.

(** A call writes a sample exactly when it passes validation with every
    int under the cap. *)
Lemma call_published (c : command) (w : world) :
  List.length (published_by (call c) w)
  = if sends c && call_fits c w then 1%nat else 0%nat.
Proof.
  destruct (call_cases c w)
    as [(Hs & Hf & items & line & Hc & _)|[(Hs & Hf & line & Hc)|(Hf & Hc)]];
    rewrite ?Hs, Hf.
  - now rewrite (published_by_sent _ _ _ _ _ Hc).
  - rewrite published_by_same_arm; [reflexivity|]. now rewrite Hc.
  - rewrite andb_false_r.
    rewrite published_by_same_arm; [reflexivity|]. now rewrite Hc.
Qed.

End CallFacts.

Section RunFacts.
Local Open Scope py_scope.

(** A run from any world, to its end or to the call that raises: the
    counter advances by the number of samples written, and the i-th
    sample added carries the counter value the run started from plus i. *)
Lemma run_counts (cmds : list command) :
  forall w,
    forallb args_ok cmds = true ->
    exists msgs,
      cmd_writer (arm (snd (run cmds w))) = cmd_writer (arm w) ++ msgs
      /\ _seq (arm (snd (run cmds w)))
         = _seq (arm w) + Z.of_nat (List.length msgs)
      /\ (fst (run cmds w) = Return tt ->
          List.length msgs = List.length (filter sends cmds))
      /\ (forall i msg, nth_error msgs i = Some msg ->
            msg_field "seq" msg = Some (Num (Int (_seq (arm w) + Z.of_nat i)))).
Proof.
  induction cmds as [|c cmds IH]; intros w Hargs.
  - exists []. simpl. rewrite List.app_nil_r, Z.add_0_r.
    repeat split; auto. intros [|i] msg; discriminate.
  - cbn [forallb] in Hargs. apply andb_true_iff in Hargs as [Hc Hargs].
    cbn [run filter]. unfold bind at 1 2 3.
    destruct (call_cases c w)
      as [(Hs & _ & items & line & Hcall & Hok & Hfit & Hseq & _)
         |[(Hs & _ & line & Hcall)|(_ & Hcall)]];
      rewrite Hcall.
    + destruct (IH (sent w items line) Hargs) as (msgs & Hcw & Hcnt & Hlen & Hnth).
      exists (sample items :: msgs). rewrite Hcw, Hcnt, Hs.
      cbn [sent arm cmd_writer _seq List.length].
      repeat split.
      * now rewrite <- app_assoc.
      * lia.
      * intros Hr. now rewrite (Hlen Hr).
      * intros [|i] msg Hi; cbn [nth_error] in Hi.
        -- injection Hi as <-. rewrite msg_field_sample by auto.
           now rewrite Hseq, Z.add_0_r.
        -- rewrite (Hnth i msg Hi). cbn [sent arm _seq]. do 3 f_equal. lia.
    + destruct (IH {| arm := arm w; stdout := stdout w ++ [line] |} Hargs)
        as (msgs & Hcw & Hcnt & Hlen & Hnth).
      exists msgs. rewrite Hs. auto.
    + exists []. cbn [fst snd]. rewrite List.app_nil_r, Z.add_0_r.
      repeat split; auto; try discriminate. intros [|i] msg; discriminate.
Qed.

(** What a call makes of the controller: the samples it writes go after
    the earlier ones, the counter moves by their number, the domain id
    stays. *)
Lemma call_arm_shape (c : command) (w : world) :
  arm (snd (call c w))
  = {| participant := participant (arm w);
       cmd_writer := cmd_writer (arm w) ++ published_by (call c) w;
       _seq := _seq (arm w) + Z.of_nat (List.length (published_by (call c) w)) |}.
Proof.
  destruct (call_cases c w)
    as [(_ & _ & items & line & Hc & _)|[(_ & _ & line & Hc)|(_ & Hc)]].
  - rewrite (published_by_sent _ _ _ _ _ Hc), Hc. reflexivity.
  - rewrite published_by_same_arm by (now rewrite Hc). rewrite Hc. cbn [snd arm].
    rewrite List.app_nil_r, Z.add_0_r. now destruct (arm w).
  - rewrite published_by_same_arm by (now rewrite Hc). rewrite Hc. cbn [snd arm].
    rewrite List.app_nil_r, Z.add_0_r. now destruct (arm w).
Qed.

Lemma call_fits_same_seq (c : command) (w1 w2 : world) :
  _seq (arm w1) = _seq (arm w2) -> call_fits c w1 = call_fits c w2.
Proof. intros H. destruct c; cbn [call_fits]; now rewrite H. Qed.

(** The outcome of a call and the samples it writes depend on the world
    through the counter only. *)
Lemma call_same_seq (c : command) (w1 w2 : world) :
  _seq (arm w1) = _seq (arm w2) ->
  fst (call c w1) = fst (call c w2)
  /\ published_by (call c) w1 = published_by (call c) w2.
Proof.
  intros Hseq. pose proof (call_fits_same_seq c w1 w2 Hseq) as Hfits.
  destruct (call_fits c w1) eqn:Hf1.
  - symmetry in Hfits. destruct (sends c) eqn:Hs.
    + destruct c as [j a d|angles|mode|]; simpl in Hs;
        cbn [call call_fits] in *.
      * rewrite Hs in Hf1, Hfits.
        apply andb_true_iff in Hs as [H0 H6].
        apply Z.leb_le in H0. apply Z.leb_le in H6.
        destruct (move_joint_sends j a d w1 (conj H0 H6) Hf1) as (n1 & _ & E1).
        destruct (move_joint_sends j a d w2 (conj H0 H6) Hfits) as (n2 & _ & E2).
        rewrite (published_by_sent _ _ _ _ _ E1), (published_by_sent _ _ _ _ _ E2).
        rewrite E1, E2, Hseq. split; reflexivity.
      * rewrite Hs in Hf1, Hfits. apply Nat.eqb_eq in Hs.
        destruct (seven_items angles Hs)
          as (a0 & a1 & a2 & a3 & a4 & a5 & a6 & ->).
        pose proof (move_all_joints_sends _ _ _ _ _ _ _ w1 Hf1) as E1.
        pose proof (move_all_joints_sends _ _ _ _ _ _ _ w2 Hfits) as E2.
        rewrite (published_by_sent _ _ _ _ _ E1), (published_by_sent _ _ _ _ _ E2).
        rewrite E1, E2, Hseq. split; reflexivity.
      * pose proof (enable_joints_sends mode w1 Hf1) as E1.
        pose proof (enable_joints_sends mode w2 Hfits) as E2.
        rewrite (published_by_sent _ _ _ _ _ E1), (published_by_sent _ _ _ _ _ E2).
        rewrite E1, E2, Hseq. split; reflexivity.
      * pose proof (go_to_zero_sends w1 Hf1) as E1.
        pose proof (go_to_zero_sends w2 Hfits) as E2.
        rewrite (published_by_sent _ _ _ _ _ E1), (published_by_sent _ _ _ _ _ E2).
        rewrite E1, E2, Hseq. split; reflexivity.
    + destruct (call_rejects c w1 Hs Hf1) as (l1 & E1).
      destruct (call_rejects c w2 Hs Hfits) as (l2 & E2).
      rewrite !published_by_same_arm by (rewrite ?E1, ?E2; reflexivity).
      rewrite E1, E2. split; reflexivity.
  - symmetry in Hfits.
    pose proof (call_raises c w1 Hf1) as E1.
    pose proof (call_raises c w2 Hfits) as E2.
    rewrite !published_by_same_arm by (rewrite ?E1, ?E2; reflexivity).
    rewrite E1, E2. split; reflexivity.
Qed.

(** The outcome of a call and the controller after it depend on the
    controller before it, not on what was printed. *)
Lemma call_arm (c : command) (w1 w2 : world) :
  arm w1 = arm w2 ->
  fst (call c w1) = fst (call c w2)
  /\ arm (snd (call c w1)) = arm (snd (call c w2)).
Proof.
  intros Harm.
  destruct (call_same_seq c w1 w2 (f_equal _seq Harm)) as [Hr Hp].
  split; [exact Hr|]. rewrite !call_arm_shape. now rewrite Hp, Harm.
Qed.

Lemma run_arm (cmds : list command) (w1 w2 : world) :
  arm w1 = arm w2 ->
  fst (run cmds w1) = fst (run cmds w2)
  /\ arm (snd (run cmds w1)) = arm (snd (run cmds w2)).
Proof.
  revert w1 w2. induction cmds as [|c cmds IH]; intros w1 w2 Harm;
    [split; [reflexivity|exact Harm]|].
  destruct (call_arm c w1 w2 Harm) as [Hr Ha].
  cbn [run]. unfold bind.
  destruct (call c w1) as [[[]|e1] w1'], (call c w2) as [[[]|e2] w2'];
    cbn [fst snd] in *; try discriminate.
  - now apply IH.
  - split; [exact Hr|exact Ha].
Qed.

End RunFacts.

(* ================================================================== *)
(** * The properties of the specification *)

Section Claims.
Local Open Scope py_scope.

(** C1.  A call sends (writes one sample) exactly when it passes the
    validation of its operation and every int it converts is under the
    cap.  On one controller, whatever calls are made, the counter starts
    at 0, the n-th sample written (counting from 0) carries [seq = n],
    the counter equals the number of samples written (the number of
    calls that pass validation when the run goes to its end), and any
    further call moves it by exactly one if it sends and not at all
    otherwise. *)
Theorem sequence_numbers (domain_id : Z) (cmds : list command) :
  forallb args_ok cmds = true ->
  _seq (arm (__init__ domain_id)) = 0
  /\ (forall c w0,
         List.length (published_by (call c) w0)
         = if sends c && call_fits c w0 then 1%nat else 0%nat)
  /\ _seq (arm (snd (run cmds (__init__ domain_id))))
     = Z.of_nat (List.length (cmd_writer (arm (snd (run cmds (__init__ domain_id))))))
  /\ (fst (run cmds (__init__ domain_id)) = Return tt ->
      List.length (cmd_writer (arm (snd (run cmds (__init__ domain_id)))))
      = List.length (filter sends cmds))
  /\ (forall n msg,
         nth_error (cmd_writer (arm (snd (run cmds (__init__ domain_id))))) n
         = Some msg ->
         msg_field "seq" msg = Some (Num (Int (Z.of_nat n))))
  /\ (forall c,
         _seq (arm (snd (call c (snd (run cmds (__init__ domain_id))))))
         = _seq (arm (snd (run cmds (__init__ domain_id))))
           + Z.of_nat
               (List.length
                  (published_by (call c) (snd (run cmds (__init__ domain_id)))))).
Proof.
  intros Hargs. split; [reflexivity|]. split; [exact call_published|].
  destruct (run_counts cmds (__init__ domain_id) Hargs)
    as (msgs & Hcw & Hcnt & Hlen & Hnth).
  cbn [__init__ arm cmd_writer _seq app] in Hcw, Hcnt, Hnth.
  split; [rewrite Hcw, Hcnt; lia|].
  split; [rewrite Hcw; exact Hlen|].
  split; [|intros c; apply call_seq].
  rewrite Hcw. intros n msg Hn. now rewrite (Hnth n msg Hn).
Qed.

Lemma sequence_numbers_witness :
  _seq (arm (snd (run example_calls (__init__ 0)))) = 4
  /\ List.length (cmd_writer (arm (snd (run example_calls (__init__ 0)))))
     = 4%nat.
Proof.
  destruct (sequence_numbers 0 example_calls eq_refl)
    as (_ & _ & Hseq & Hlen & _).
  split; [exact Hseq|exact (Hlen eq_refl)].
Defined.

(** C2 as stated fails: with a joint id of 4301 digits the error line
    cannot be built, so the call raises [ValueError] and reports
    nothing. *)
Lemma move_joint_out_of_range_counterexample :
  6 < huge
  /\ fst (move_joint huge (Int 0) 0 (__init__ 0)) = Raise ValueError
  /\ stdout (snd (move_joint huge (Int 0) 0 (__init__ 0)))
     = stdout (__init__ 0).
Proof.
  split; [exact huge_above_six|].
  rewrite (move_joint_rejects_raises huge (Int 0) 0 (__init__ 0)
             (or_intror huge_above_six) huge_over_cap).
  split; reflexivity.
Qed.

(** C2, amended.  [move_joint] with a joint id outside 0..6 writes no
    sample and leaves the controller, its counter included, as it was;
    when the joint id has at most 4300 digits it returns normally and
    prints the error line. *)
Theorem move_joint_out_of_range
        (joint_id : Z) (angle : number) (delay_ms : Z) (w : world) :
  joint_id < 0 \/ 6 < joint_id ->
  published_by (move_joint joint_id angle delay_ms) w = []
  /\ arm (snd (move_joint joint_id angle delay_ms w)) = arm w
  /\ (int_fits joint_id = true ->
      fst (move_joint joint_id angle delay_ms w) = Return tt
      /\ stdout (snd (move_joint joint_id angle delay_ms w))
         = stdout w
             ++ [string_of_list_ascii
                   (chars "Error: joint_id must be 0-6, got "
                      ++ decimal joint_id)]).
Proof.
  intros Hj.
  assert (Harm : arm (snd (move_joint joint_id angle delay_ms w)) = arm w).
  { destruct (int_fits joint_id) eqn:Hfit.
    - now rewrite (move_joint_rejects joint_id angle delay_ms w Hj Hfit).
    - now rewrite (move_joint_rejects_raises joint_id angle delay_ms w Hj Hfit). }
  split; [now apply published_by_same_arm|]. split; [exact Harm|].
  intros Hfit.
  rewrite (move_joint_rejects joint_id angle delay_ms w Hj Hfit). split; reflexivity.
Qed.

Lemma move_joint_out_of_range_witness :
  arm (snd (move_joint 7 (Int 10) 0 (__init__ 0))) = arm (__init__ 0)
  /\ stdout (snd (move_joint (-1) (Int 10) 0 (__init__ 0)))
     = stdout (__init__ 0) ++ ["Error: joint_id must be 0-6, got -1"%string].
Proof.
  split.
  - apply (move_joint_out_of_range 7 (Int 10) 0 (__init__ 0)). right. reflexivity.
  - apply (move_joint_out_of_range (-1) (Int 10) 0 (__init__ 0));
      [left|]; reflexivity.
Defined.

(** C3.  [move_all_joints] with a list that does not have exactly 7
    items returns normally, prints the error line, writes no sample and
    leaves the controller, its counter included, as it was. *)
Theorem move_all_joints_wrong_length (angles : list number) (w : world) :
  List.length angles <> 7%nat ->
  fst (move_all_joints angles w) = Return tt
  /\ published_by (move_all_joints angles) w = []
  /\ arm (snd (move_all_joints angles w)) = arm w
  /\ stdout (snd (move_all_joints angles w))
     = stdout w
         ++ [string_of_list_ascii
               (chars "Error: expected 7 angles, got "
                  ++ decimal (Z.of_nat (List.length angles)))].
Proof.
  intros Hlen. rewrite (published_by_same_arm (move_all_joints angles) w);
    rewrite (move_all_joints_rejects angles w Hlen); repeat split.
Qed.

Lemma move_all_joints_wrong_length_witness :
  arm (snd (move_all_joints [Int 1; Int 2] (__init__ 0))) = arm (__init__ 0)
  /\ stdout (snd (move_all_joints [Int 1; Int 2] (__init__ 0)))
     = stdout (__init__ 0) ++ ["Error: expected 7 angles, got 2"%string].
Proof.
  split; apply (move_all_joints_wrong_length [Int 1; Int 2] (__init__ 0));
    discriminate.
Defined.

(** C4.  On a fresh controller, [move_joint(3, 45.0)] writes exactly one
    sample; its payload is the text below and decodes to the object with
    funcode 1, data [{id: 3, angle: 45.0, delay_ms: 0}], seq 0 and
    address 1. *)
Theorem move_joint_scenario (domain_id : Z) :
  exists msg,
    cmd_writer (arm (snd (move_joint 3 (Float float_45) 0 (__init__ domain_id))))
    = [msg]
    /\ data_ msg
       = string_of_list_ascii
           ("{"%char :: quoted "funcode" ++ chars ": 1, "
              ++ quoted "data" ++ chars ": {"
              ++ quoted "id" ++ chars ": 3, "
              ++ quoted "angle" ++ chars ": 45.0, "
              ++ quoted "delay_ms" ++ chars ": 0}, "
              ++ quoted "seq" ++ chars ": 0, "
              ++ quoted "address" ++ chars ": 1}")
    /\ decoded msg
       = Some (Dict [ ("funcode", Num (Int 1));
                      ("data", Dict [ ("id", Num (Int 3));
                                      ("angle", Num (Float float_45));
                                      ("delay_ms", Num (Int 0)) ]);
                      ("seq", Num (Int 0));
                      ("address", Num (Int 1)) ]%string).
Proof. eexists. repeat split. Qed.

(** C5 as stated fails: a list of 7 numbers that holds an int of 4301
    digits passes the length check, [json.dumps] raises [ValueError] and
    no sample is written. *)
Lemma move_all_joints_round_trip_counterexample :
  List.length (map Int [huge; 10; 20; 30; 40; 50; 60]) = 7%nat
  /\ forallb number_ok (map Int [huge; 10; 20; 30; 40; 50; 60]) = true
  /\ fst (move_all_joints (map Int [huge; 10; 20; 30; 40; 50; 60]) (__init__ 0))
     = Raise ValueError
  /\ published_by
       (move_all_joints (map Int [huge; 10; 20; 30; 40; 50; 60])) (__init__ 0)
     = [].
Proof.
  cbn [map].
  assert (Hcall : move_all_joints
                    [Int huge; Int 10; Int 20; Int 30; Int 40; Int 50; Int 60]
                    (__init__ 0)
                  = (Raise ValueError, __init__ 0)).
  { apply move_all_joints_sends_raises.
    cbn [forallb number_fits]. now rewrite huge_over_cap. }
  split; [reflexivity|]. split; [reflexivity|].
  split; [now rewrite Hcall|].
  apply published_by_same_arm. now rewrite Hcall.
Qed.

(** C5, amended.  For every list of 7 angles whose ints have at most
    4300 digits, on a controller whose counter has at most 4300 digits,
    [move_all_joints] writes one sample whose decoded payload has
    funcode 2, [data.mode = 1] and, for each index i, [data.angle<i>]
    equal to the i-th input angle (the same number; a NaN reads back as
    NaN). *)
Theorem move_all_joints_round_trip (angles : list number) (w : world) :
  List.length angles = 7%nat ->
  forallb number_ok angles = true ->
  forallb number_fits angles = true ->
  int_fits (_seq (arm w)) = true ->
  exists msg rec data,
    published_by (move_all_joints angles) w = [msg]
    /\ decoded msg = Some rec
    /\ field "funcode" rec = Some (Num (Int 2))
    /\ field "data" rec = Some data
    /\ field "mode" data = Some (Num (Int 1))
    /\ (forall i a, nth_error angles i = Some a ->
                    field (angle_key i) data = Some (Num a)).
Proof.
  intros Hlen Hok Hfit Hseq.
  destruct (seven_items angles Hlen) as (a0 & a1 & a2 & a3 & a4 & a5 & a6 & ->).
  assert (Hfit' : forallb number_fits [a0; a1; a2; a3; a4; a5; a6]
                    && int_fits (_seq (arm w)) = true)
    by now rewrite Hfit, Hseq.
  pose proof (move_all_joints_sends a0 a1 a2 a3 a4 a5 a6 w Hfit') as Hcall.
  rewrite (published_by_sent _ _ _ _ _ Hcall).
  do 3 eexists. split; [reflexivity|]. split.
  - apply decoded_sample.
    + cbn in Hok |- *.
      repeat (apply andb_true_iff in Hok as [?H Hok]).
      repeat match goal with H : number_ok _ = true |- _ => rewrite H; clear H end.
      reflexivity.
    + stamped_fits. cbn [forallb] in Hfit'. rewrite ?andb_true_r in Hfit'.
      exact Hfit'.
  - repeat split.
    intros i a Hi.
    do 7 (destruct i as [|i]; [injection Hi as <-; reflexivity|]).
    destruct i; discriminate.
Qed.

Lemma move_all_joints_round_trip_witness :
  exists msg rec data,
    published_by
      (move_all_joints (map Int [0; 10; 20; 30; 40; 50; 60])) (__init__ 0)
    = [msg]
    /\ decoded msg = Some rec
    /\ field "funcode" rec = Some (Num (Int 2))
    /\ field "data" rec = Some data
    /\ field "mode" data = Some (Num (Int 1))
    /\ field "angle0" data = Some (Num (Int 0))
    /\ field "angle1" data = Some (Num (Int 10))
    /\ field "angle2" data = Some (Num (Int 20))
    /\ field "angle3" data = Some (Num (Int 30))
    /\ field "angle4" data = Some (Num (Int 40))
    /\ field "angle5" data = Some (Num (Int 50))
    /\ field "angle6" data = Some (Num (Int 60)).
Proof.
  destruct (move_all_joints_round_trip
              (map Int [0; 10; 20; 30; 40; 50; 60]) (__init__ 0)
              eq_refl eq_refl eq_refl eq_refl)
    as (msg & rec & data & Hpub & Hdec & Hfun & Hdata & Hmode & Hangle).
  exists msg, rec, data.
  repeat split; try assumption;
    [ exact (Hangle 0%nat _ eq_refl) | exact (Hangle 1%nat _ eq_refl)
    | exact (Hangle 2%nat _ eq_refl) | exact (Hangle 3%nat _ eq_refl)
    | exact (Hangle 4%nat _ eq_refl) | exact (Hangle 5%nat _ eq_refl)
    | exact (Hangle 6%nat _ eq_refl) ].
Defined.

(** C6.  Every call of [go_to_zero], on a controller whose counter has
    at most 4300 digits, writes one sample whose decoded payload is an
    object with funcode 7, the counter and the address, and no "data"
    key. *)
Theorem go_to_zero_has_no_data (w : world) :
  int_fits (_seq (arm w)) = true ->
  exists msg,
    published_by go_to_zero w = [msg]
    /\ decoded msg
       = Some (Dict [ ("funcode", Num (Int 7));
                      ("seq", Num (Int (_seq (arm w))));
                      ("address", Num (Int 1)) ]%string)
    /\ msg_field "funcode" msg = Some (Num (Int 7))
    /\ msg_field "data" msg = None.
Proof.
  intros Hseq.
  rewrite (published_by_sent _ _ _ _ _ (go_to_zero_sends w Hseq)).
  eexists. split; [reflexivity|].
  assert (Hok : value_ok (Dict [ ("funcode", Num (Int 7));
                                 ("seq", Num (Int (_seq (arm w))));
                                 ("address", Num (Int 1)) ]%string) = true)
    by reflexivity.
  assert (Hfit : ints_fit (Dict [ ("funcode", Num (Int 7));
                                  ("seq", Num (Int (_seq (arm w))));
                                  ("address", Num (Int 1)) ]%string) = true)
    by (stamped_fits; exact Hseq).
  rewrite !msg_field_sample by assumption.
  rewrite (decoded_sample _ Hok Hfit). repeat split.
Qed.

Lemma go_to_zero_has_no_data_witness :
  exists msg,
    published_by go_to_zero (__init__ 0) = [msg]
    /\ msg_field "funcode" msg = Some (Num (Int 7))
    /\ msg_field "data" msg = None.
Proof.
  destruct (go_to_zero_has_no_data (__init__ 0) eq_refl)
    as (msg & Hpub & _ & Hfun & Hdata).
  exists msg. repeat split; assumption.
Defined.

(** C7 as stated fails: [enable_joints] with a mode of 4301 digits
    raises [ValueError] in [json.dumps] and writes no sample. *)
Lemma enable_joints_any_mode_counterexample :
  fst (enable_joints huge (__init__ 0)) = Raise ValueError
  /\ published_by (enable_joints huge) (__init__ 0) = [].
Proof.
  assert (Hcall : enable_joints huge (__init__ 0)
                  = (Raise ValueError, __init__ 0)).
  { apply enable_joints_raises. now rewrite huge_over_cap. }
  split; [now rewrite Hcall|].
  apply published_by_same_arm. now rewrite Hcall.
Qed.

(** C7, amended.  [enable_joints] does not validate its argument: for
    every int mode of at most 4300 digits, on a controller whose counter
    has at most 4300 digits, it returns and writes one sample with
    funcode 5 and data [{mode: mode}]; on a fresh controller
    [enable_joints(1)] then [enable_joints()] write two samples, mode 1
    with seq 0 and mode 0 with seq 1. *)
Theorem enable_joints_any_mode :
  (forall (mode : Z) (w : world),
      int_fits mode = true ->
      int_fits (_seq (arm w)) = true ->
      fst (enable_joints mode w) = Return tt
      /\ exists msg,
           published_by (enable_joints mode) w = [msg]
           /\ decoded msg
              = Some (Dict [ ("funcode", Num (Int 5));
                             ("data", Dict [ ("mode", Num (Int mode)) ]);
                             ("seq", Num (Int (_seq (arm w))));
                             ("address", Num (Int 1)) ]%string))
  /\ (forall domain_id : Z,
         exists m1 m2,
           published_by (enable_joints 1 ;; enable_joints_default)
                        (__init__ domain_id)
           = [m1; m2]
           /\ decoded m1
              = Some (Dict [ ("funcode", Num (Int 5));
                             ("data", Dict [ ("mode", Num (Int 1)) ]);
                             ("seq", Num (Int 0));
                             ("address", Num (Int 1)) ]%string)
           /\ decoded m2
              = Some (Dict [ ("funcode", Num (Int 5));
                             ("data", Dict [ ("mode", Num (Int 0)) ]);
                             ("seq", Num (Int 1));
                             ("address", Num (Int 1)) ]%string)).
Proof.
  split.
  - intros mode w Hm Hseq.
    assert (Hfit : int_fits mode && int_fits (_seq (arm w)) = true)
      by now rewrite Hm, Hseq.
    pose proof (enable_joints_sends mode w Hfit) as Hcall.
    rewrite (published_by_sent _ _ _ _ _ Hcall), Hcall.
    split; [reflexivity|].
    eexists. split; [reflexivity|]. apply decoded_sample; [reflexivity|].
    stamped_fits. exact Hfit.
  - intros domain_id. do 2 eexists. repeat split.
Qed.

Lemma enable_joints_any_mode_witness :
  fst (enable_joints 2 other_world) = Return tt
  /\ exists msg,
       published_by (enable_joints 2) other_world = [msg]
       /\ decoded msg
          = Some (Dict [ ("funcode", Num (Int 5));
                         ("data", Dict [ ("mode", Num (Int 2)) ]);
                         ("seq", Num (Int 0));
                         ("address", Num (Int 1)) ]%string).
Proof.
  exact (proj1 enable_joints_any_mode 2 other_world eq_refl eq_refl).
Defined.

(** C8.  Whatever the operation, every sample a call writes has
    [address = 1] in its decoded payload; a call that passes validation
    with every int under the cap writes one. *)
Theorem address_is_one (c : command) (w : world) :
  args_ok c = true ->
  (forall msg, In msg (published_by (call c) w) ->
               msg_field "address" msg = Some (Num (Int 1)))
  /\ (sends c = true -> call_fits c w = true ->
      exists msg, published_by (call c) w = [msg]).
Proof.
  intros Ha. split.
  - intros msg Hin.
    destruct (call_cases c w)
      as [(_ & _ & items & line & Hc & Hok & Hfit & _ & Haddr)
         |[(_ & _ & line & Hc)|(_ & Hc)]].
    + rewrite (published_by_sent _ _ _ _ _ Hc) in Hin.
      destruct Hin as [<-|[]]. rewrite msg_field_sample by auto. exact Haddr.
    + rewrite published_by_same_arm in Hin by (now rewrite Hc). destruct Hin.
    + rewrite published_by_same_arm in Hin by (now rewrite Hc). destruct Hin.
  - intros Hs Hf.
    destruct (call_sends c w Hs Hf) as (items & line & Hc & _).
    rewrite (published_by_sent _ _ _ _ _ Hc). eauto.
Qed.

Lemma address_is_one_witness :
  exists msg,
    published_by (call (MoveJoint 3 (Float float_45) 0)) (__init__ 0) = [msg]
    /\ msg_field "address" msg = Some (Num (Int 1)).
Proof.
  destruct (address_is_one (MoveJoint 3 (Float float_45) 0) (__init__ 0) eq_refl)
    as [Haddr Hex].
  destruct (Hex eq_refl eq_refl) as (msg & Hpub).
  exists msg. split; [exact Hpub|].
  apply Haddr. rewrite Hpub. left. reflexivity.
Defined.

(** C9.  [as_list] returns 7 items, one per joint name, the i-th being
    field [servo<i>_data_]; on a default sample they are seven zeros. *)
Theorem as_list_order :
  (forall s : PubServoInfo,
      List.length (as_list s) = 7%nat
      /\ List.length (as_list s) = List.length JOINT_NAMES
      /\ nth_error (as_list s) 0 = Some (servo0_data_ s)
      /\ nth_error (as_list s) 1 = Some (servo1_data_ s)
      /\ nth_error (as_list s) 2 = Some (servo2_data_ s)
      /\ nth_error (as_list s) 3 = Some (servo3_data_ s)
      /\ nth_error (as_list s) 4 = Some (servo4_data_ s)
      /\ nth_error (as_list s) 5 = Some (servo5_data_ s)
      /\ nth_error (as_list s) 6 = Some (servo6_data_ s))
  /\ as_list PubServoInfo_default = repeat float_zero 7.
Proof. split; [intros s|]; repeat split. Qed.

(** C10.  The samples a call writes depend on the controller only
    through its counter: two controllers with the same counter that get
    the same call write the same payload strings. *)
Theorem payload_deterministic (c : command) (w1 w2 : world) :
  _seq (arm w1) = _seq (arm w2) ->
  published_by (call c) w1 = published_by (call c) w2.
Proof. intros Hseq. exact (proj2 (call_same_seq c w1 w2 Hseq)). Qed.

Lemma payload_deterministic_witness :
  published_by (call (MoveJoint 3 (Float float_45) 0)) (__init__ 0)
  = published_by (call (MoveJoint 3 (Float float_45) 0)) other_world.
Proof.
  exact (payload_deterministic (MoveJoint 3 (Float float_45) 0)
           (__init__ 0) other_world eq_refl).
Defined.

End Claims.

(* ================================================================== *)
(** * Further properties of the controller and the messages *)

Section DictUpdateFacts.

Lemma dict_get_set_same (k : string) (v : pyvalue) (d : dict) :
  dict_get k (dict_set k v d) = Some v.
Proof.
  induction d as [|[a x] d IH]; simpl.
  - now rewrite String.eqb_refl.
  - destruct (String.eqb a k) eqn:E; simpl; now rewrite E.
Qed.

Lemma dict_get_set_other (k k' : string) (v : pyvalue) (d : dict) :
  k' <> k -> dict_get k' (dict_set k v d) = dict_get k' d.
Proof.
  intros Hne. induction d as [|[a x] d IH]; simpl.
  - destruct (String.eqb k k') eqn:E; [|reflexivity].
    apply String.eqb_eq in E. congruence.
  - destruct (String.eqb a k) eqn:E; simpl.
    + apply String.eqb_eq in E. subst a.
      destruct (String.eqb k k') eqn:E'; [|reflexivity].
      apply String.eqb_eq in E'. congruence.
    + now rewrite IH.
Qed.

Lemma existsb_keys_dict_set (a k : string) (v : pyvalue) (d : dict) :
  existsb (String.eqb a) (map fst (dict_set k v d))
  = existsb (String.eqb a) (map fst d) || String.eqb a k.
Proof.
  induction d as [|[b x] d IH]; simpl.
  - now rewrite orb_false_r.
  - destruct (String.eqb b k) eqn:E; simpl.
    + apply String.eqb_eq in E. subst b.
      destruct (String.eqb a k), (existsb (String.eqb a) (map fst d));
        reflexivity.
    + rewrite IH. now rewrite orb_assoc.
Qed.

Lemma unique_keys_dict_set (k : string) (v : pyvalue) (d : dict) :
  unique_keys (map fst d) = true ->
  unique_keys (map fst (dict_set k v d)) = true.
Proof.
  induction d as [|[a x] d IH]; simpl; intros H; [reflexivity|].
  apply andb_true_iff in H as [Ha Hd].
  destruct (String.eqb a k) eqn:E; simpl.
  - now rewrite Ha, Hd.
  - rewrite existsb_keys_dict_set, E, orb_false_r, Ha. simpl. auto.
Qed.

Lemma items_ok_dict_set (k : string) (v : pyvalue) (d : dict) :
  plain_key k = true ->
  value_ok v = true ->
  forallb (fun kv => plain_key (fst kv) && value_ok (snd kv)) d = true ->
  forallb (fun kv => plain_key (fst kv) && value_ok (snd kv)) (dict_set k v d)
  = true.
Proof.
  intros Hk Hv. induction d as [|[a x] d IH]; simpl; intros H.
  - now rewrite Hk, Hv.
  - apply andb_true_iff in H as [Hax Hd].
    apply andb_true_iff in Hax as [Ha Hx].
    destruct (String.eqb a k) eqn:E; simpl.
    + now rewrite Ha, Hv, Hd.
    + now rewrite Ha, Hx, IH.
Qed.

(** An assignment of a well-formed value under a plain key keeps a dict
    well-formed. *)
Lemma value_ok_dict_set (k : string) (v : pyvalue) (d : dict) :
  plain_key k = true ->
  value_ok v = true ->
  value_ok (Dict d) = true ->
  value_ok (Dict (dict_set k v d)) = true.
Proof.
  intros Hk Hv Hd. cbn [value_ok] in *.
  apply andb_true_iff in Hd as [Hitems Huniq].
  now rewrite items_ok_dict_set, unique_keys_dict_set.
Qed.

End DictUpdateFacts.

Section SendAnyPayload.
Local Open Scope py_scope.

Lemma ints_fit_dict_set (k : string) (v : pyvalue) (d : dict) :
  ints_fit v = true ->
  ints_fit (Dict d) = true ->
  ints_fit (Dict (dict_set k v d)) = true.
Proof.
  intros Hv. cbn [ints_fit]. induction d as [|[a x] d IH]; simpl; intros H.
  - now rewrite Hv.
  - apply andb_true_iff in H as [Hx Hd].
    destruct (String.eqb a k); simpl.
    + now rewrite Hv, Hd.
    + now rewrite Hx, IH.
Qed.

(** X1.  [_send] on a well-formed dict whose ints, like the counter,
    have at most 4300 digits returns, prints nothing, bumps the counter
    by one and writes one sample.  The decoded sample has [seq] equal to
    the counter before the call and [address] 1, whatever the caller had
    put under these two keys, and every other key as the caller gave it.
    When the stamped dict holds an int over the cap, [_send] raises
    [ValueError] and nothing is written, printed or counted. *)
Theorem send_stamps_any_payload (payload : dict) (w : world) :
  value_ok (Dict payload) = true ->
  (ints_fit (Dict payload) = true ->
   int_fits (_seq (arm w)) = true ->
   fst (_send payload w) = Return tt
   /\ stdout (snd (_send payload w)) = stdout w
   /\ _seq (arm (snd (_send payload w))) = _seq (arm w) + 1
   /\ exists msg items,
        published_by (_send payload) w = [msg]
        /\ decoded msg = Some (Dict items)
        /\ dict_get "seq" items = Some (Num (Int (_seq (arm w))))
        /\ dict_get "address" items = Some (Num (Int 1))
        /\ (forall k, k <> "seq"%string -> k <> "address"%string ->
                      dict_get k items = dict_get k payload))
  /\ (ints_fit (Dict (dict_set "address" (Num (Int 1))
                        (dict_set "seq" (Num (Int (_seq (arm w)))) payload)))
      = false ->
      _send payload w = (Raise ValueError, w)).
Proof.
  intros Hok. split.
  - intros Hfit Hseq.
    assert (Hst : ints_fit (Dict (dict_set "address" (Num (Int 1))
                                    (dict_set "seq" (Num (Int (_seq (arm w))))
                                       payload))) = true).
    { apply ints_fit_dict_set; [reflexivity|].
      apply ints_fit_dict_set; [exact Hseq|exact Hfit]. }
    unfold published_by. rewrite send_result. cbv zeta. rewrite Hst.
    cbn [fst snd arm stdout _seq cmd_writer].
    repeat split.
    do 2 eexists. split.
    + rewrite skipn_app, skipn_all, Nat.sub_diag. reflexivity.
    + split.
      * apply decoded_sample; [|exact Hst].
        apply value_ok_dict_set; [reflexivity|reflexivity|].
        apply value_ok_dict_set; [reflexivity|reflexivity|exact Hok].
      * split; [|split].
        -- rewrite dict_get_set_other by discriminate.
           apply dict_get_set_same.
        -- apply dict_get_set_same.
        -- intros k Hs Ha. now rewrite !dict_get_set_other.
  - intros Hst. rewrite send_result. cbv zeta. now rewrite Hst.
Qed.

Lemma send_stamps_any_payload_witness :
  exists msg items,
    published_by
      (_send [ ("funcode", Num (Int 9)); ("seq", Num (Int 99)) ]%string)
      (__init__ 0)
    = [msg]
    /\ decoded msg = Some (Dict items)
    /\ dict_get "seq" items = Some (Num (Int 0))
    /\ dict_get "funcode" items = Some (Num (Int 9)).
Proof.
  destruct (send_stamps_any_payload
              [ ("funcode", Num (Int 9)); ("seq", Num (Int 99)) ]%string
              (__init__ 0) eq_refl)
    as [Hsend _].
  destruct (Hsend eq_refl eq_refl)
    as (_ & _ & _ & msg & items & Hpub & Hdec & Hseq & _ & Hkeep).
  exists msg, items. repeat split; try assumption.
  rewrite (Hkeep "funcode"%string) by discriminate. reflexivity.
Defined.

End SendAnyPayload.

Section MoreCallFacts.
Local Open Scope py_scope.


(** X3.  [move_joint] with a joint id in 0..6, an angle and a delay
    under the cap, on a controller whose counter is under the cap,
    writes one sample that decodes to funcode 1 with data
    [{id, angle, delay_ms}] as given, the counter and address 1; it
    bumps the counter and prints one line that names the joint by
    [JOINT_NAMES[joint_id]]. *)
Theorem move_joint_in_range
        (joint_id : Z) (angle : number) (delay_ms : Z) (w : world) :
  0 <= joint_id <= 6 ->
  number_ok angle = true ->
  number_fits angle = true ->
  int_fits delay_ms = true ->
  int_fits (_seq (arm w)) = true ->
  exists msg name,
    published_by (move_joint joint_id angle delay_ms) w = [msg]
    /\ decoded msg
       = Some (Dict [ ("funcode", Num (Int 1));
                      ("data", Dict [ ("id", Num (Int joint_id));
                                      ("angle", Num angle);
                                      ("delay_ms", Num (Int delay_ms)) ]);
                      ("seq", Num (Int (_seq (arm w))));
                      ("address", Num (Int 1)) ]%string)
    /\ _seq (arm (snd (move_joint joint_id angle delay_ms w)))
       = _seq (arm w) + 1
    /\ nth_error JOINT_NAMES (Z.to_nat joint_id) = Some name
    /\ stdout (snd (move_joint joint_id angle delay_ms w))
       = stdout w
           ++ [string_of_list_ascii
                 (chars "Joint " ++ decimal joint_id ++ chars " ("
                    ++ chars name ++ chars ") -> " ++ number_text angle
                    ++ chars " deg")].
Proof.
  intros Hj Hok Ha Hd Hseq.
  assert (Hfit : number_fits angle && int_fits delay_ms
                   && int_fits (_seq (arm w)) = true)
    by now rewrite Ha, Hd, Hseq.
  destruct (move_joint_sends joint_id angle delay_ms w Hj Hfit)
    as (name & Hname & Hcall).
  rewrite (published_by_sent _ _ _ _ _ Hcall), Hcall.
  exists (sample [ ("funcode", Num (Int 1));
                   ("data", Dict [ ("id", Num (Int joint_id));
                                   ("angle", Num angle);
                                   ("delay_ms", Num (Int delay_ms)) ]);
                   ("seq", Num (Int (_seq (arm w))));
                   ("address", Num (Int 1)) ]%string), name.
  split; [reflexivity|]. split.
  - apply decoded_sample.
    + cbn. now rewrite Hok.
    + stamped_fits. rewrite (small_int_fits joint_id Hj). cbn [andb].
      exact Hfit.
  - repeat split. exact Hname.
Qed.

Lemma move_joint_in_range_witness :
  exists msg,
    published_by (move_joint 6 (Float float_45) 250) (__init__ 0) = [msg]
    /\ stdout (snd (move_joint 6 (Float float_45) 250 (__init__ 0)))
       = stdout (__init__ 0) ++ ["Joint 6 (Gripper) -> 45.0 deg"%string].
Proof.
  destruct (move_joint_in_range 6 (Float float_45) 250 (__init__ 0)
              ltac:(lia) eq_refl eq_refl eq_refl eq_refl)
    as (msg & name & Hpub & _ & _ & Hname & Hout).
  exists msg. split; [exact Hpub|].
  injection Hname as <-. exact Hout.
Defined.

(** X4.  Every sample a call writes tells the operation: its decoded
    payload has funcode 1 for [move_joint], 2 for [move_all_joints], 5
    for [enable_joints] and 7 for [go_to_zero], and its keys are, in
    this order, funcode, data, seq, address, with data left out for
    [go_to_zero] only.  A call that passes validation with every int
    under the cap writes one sample. *)
Theorem funcode_by_operation (c : command) (w : world) :
  args_ok c = true ->
  (forall msg,
      In msg (published_by (call c) w) ->
      exists items,
        decoded msg = Some (Dict items)
        /\ dict_get "funcode" items
           = Some (Num (Int match c with
                            | MoveJoint _ _ _ => 1
                            | MoveAllJoints _ => 2
                            | EnableJoints _ => 5
                            | GoToZero => 7
                            end))
        /\ map fst items
           = match c with
             | GoToZero => [ "funcode"; "seq"; "address" ]%string
             | _ => [ "funcode"; "data"; "seq"; "address" ]%string
             end)
  /\ (sends c = true -> call_fits c w = true ->
      exists msg, published_by (call c) w = [msg]).
Proof.
  intros Ha. split.
  - intros msg Hin.
    destruct (call_fits c w) eqn:Hf;
      [|rewrite published_by_same_arm in Hin
          by (now rewrite (call_raises c w Hf)); destruct Hin].
    destruct (sends c) eqn:Hs.
    2:{ destruct (call_rejects c w Hs Hf) as (line & Hc).
        rewrite published_by_same_arm in Hin by (now rewrite Hc).
        destruct Hin. }
    destruct c as [j a d|angles|mode|]; simpl in Hs, Ha;
      cbn [call call_fits] in *.
    + rewrite Hs in Hf.
      apply andb_true_iff in Hs as [H0 H6].
      apply Z.leb_le in H0. apply Z.leb_le in H6.
      destruct (move_joint_sends j a d w (conj H0 H6) Hf) as (name & _ & Hc).
      rewrite (published_by_sent _ _ _ _ _ Hc) in Hin.
      destruct Hin as [<-|[]]. eexists. split.
      * apply decoded_sample; [cbn; now rewrite Ha|].
        stamped_fits. rewrite (small_int_fits j (conj H0 H6)). cbn [andb].
        exact Hf.
      * split; reflexivity.
    + rewrite Hs in Hf. apply Nat.eqb_eq in Hs.
      destruct (seven_items angles Hs) as (a0 & a1 & a2 & a3 & a4 & a5 & a6 & ->).
      rewrite (published_by_sent _ _ _ _ _
                 (move_all_joints_sends _ _ _ _ _ _ _ w Hf)) in Hin.
      destruct Hin as [<-|[]]. eexists. split.
      * apply decoded_sample.
        -- cbn in Ha |- *.
           repeat (apply andb_true_iff in Ha as [?H Ha]).
           repeat match goal with
                  | H : number_ok _ = true |- _ => rewrite H; clear H
                  end.
           reflexivity.
        -- stamped_fits. cbn [forallb] in Hf. rewrite ?andb_true_r in Hf.
           exact Hf.
      * split; reflexivity.
    + rewrite (published_by_sent _ _ _ _ _ (enable_joints_sends mode w Hf)) in Hin.
      destruct Hin as [<-|[]]. eexists. split.
      * apply decoded_sample; [reflexivity|]. stamped_fits. exact Hf.
      * split; reflexivity.
    + rewrite (published_by_sent _ _ _ _ _ (go_to_zero_sends w Hf)) in Hin.
      destruct Hin as [<-|[]]. eexists. split.
      * apply decoded_sample; [reflexivity|]. stamped_fits. exact Hf.
      * split; reflexivity.
  - intros Hs Hf.
    destruct (call_sends c w Hs Hf) as (items & line & Hc & _).
    rewrite (published_by_sent _ _ _ _ _ Hc). eauto.
Qed.

Lemma funcode_by_operation_witness :
  exists msg items,
    published_by (call (EnableJoints 3)) other_world = [msg]
    /\ decoded msg = Some (Dict items)
    /\ dict_get "funcode" items = Some (Num (Int 5))
    /\ map fst items = [ "funcode"; "data"; "seq"; "address" ]%string.
Proof.
  destruct (funcode_by_operation (EnableJoints 3) other_world eq_refl)
    as [Hall Hex].
  destruct (Hex eq_refl eq_refl) as (msg & Hpub).
  destruct (Hall msg) as (items & Hdec & Hfun & Hkeys).
  { rewrite Hpub. left. reflexivity. }
  exists msg, items. repeat split; assumption.
Defined.

(** X5.  A run of calls only appends: the domain id stays, the samples
    written before are kept in front of the new ones, the lines printed
    before are kept in front of the new ones, no call prints more than
    one line, and in a run that goes to its end every call, sent or
    rejected, has printed exactly one. *)
Theorem run_appends_only (cmds : list command) (w : world) :
  exists msgs lines,
    participant (arm (snd (run cmds w))) = participant (arm w)
    /\ cmd_writer (arm (snd (run cmds w))) = cmd_writer (arm w) ++ msgs
    /\ stdout (snd (run cmds w)) = stdout w ++ lines
    /\ (List.length msgs <= List.length lines <= List.length cmds)%nat
    /\ (fst (run cmds w) = Return tt ->
        List.length lines = List.length cmds).
Proof.
  revert w. induction cmds as [|c cmds IH]; intros w.
  - exists [], []. simpl. rewrite !List.app_nil_r. repeat split; lia.
  - cbn [run]. unfold bind.
    destruct (call_cases c w)
      as [(_ & _ & items & line & Hc & _)|[(_ & _ & line & Hc)|(_ & Hc)]];
      rewrite Hc.
    + destruct (IH (sent w items line))
        as (msgs & lines & Hp & Hcw & Ho & Hl & Hr).
      exists (sample items :: msgs), (line :: lines).
      rewrite Hp, Hcw, Ho. cbn [sent arm participant cmd_writer stdout].
      rewrite <- !app_assoc. cbn [List.length app].
      repeat split; try lia. intros H. rewrite (Hr H). reflexivity.
    + destruct (IH {| arm := arm w; stdout := stdout w ++ [line] |})
        as (msgs & lines & Hp & Hcw & Ho & Hl & Hr).
      exists msgs, (line :: lines).
      rewrite Hp, Hcw, Ho. cbn [arm stdout].
      rewrite <- !app_assoc. cbn [List.length app].
      repeat split; try lia. intros H. rewrite (Hr H). reflexivity.
    + exists [], []. cbn [fst snd List.length]. rewrite !List.app_nil_r.
      repeat split; try lia. discriminate.
Qed.

End MoreCallFacts.

Section ComposeFacts.
Local Open Scope py_scope.

(** X6.  In a run that goes to its end, rejected calls leave no trace on
    the controller: the samples written, the counter and the domain id
    are those of the same run with the rejected calls taken out, which
    goes to its end too.  Only the printed lines differ. *)
Theorem rejected_calls_leave_no_trace (cmds : list command) (w : world) :
  fst (run cmds w) = Return tt ->
  fst (run (filter sends cmds) w) = Return tt
  /\ arm (snd (run cmds w)) = arm (snd (run (filter sends cmds) w)).
Proof.
  revert w. induction cmds as [|c cmds IH]; intros w Hrun;
    [split; reflexivity|].
  cbn [filter]. cbn [run] in Hrun. unfold bind in Hrun.
  destruct (call_cases c w)
    as [(Hs & _ & items & line & Hc & _)|[(Hs & _ & line & Hc)|(_ & Hc)]];
    rewrite Hc in Hrun; rewrite ?Hs.
  - cbn [run]. unfold bind. rewrite Hc. now apply IH.
  - cbn [run]. unfold bind at 1. rewrite Hc.
    destruct (IH _ Hrun) as [Hr Ha]. rewrite Ha.
    destruct (run_arm (filter sends cmds)
                {| arm := arm w; stdout := stdout w ++ [line] |} w eq_refl)
      as [Hr' Ha'].
    split; [now rewrite <- Hr'|exact Ha'].
  - discriminate.
Qed.

Lemma rejected_calls_leave_no_trace_witness :
  arm (snd (run example_calls (__init__ 0)))
  = arm (snd (run (filter sends example_calls) (__init__ 0))).
Proof.
  exact (proj2 (rejected_calls_leave_no_trace example_calls (__init__ 0)
                  eq_refl)).
Defined.

(** X7.  [as_list] loses nothing: two samples with the same list are the
    same sample. *)
Theorem as_list_injective (s1 s2 : PubServoInfo) :
  as_list s1 = as_list s2 -> s1 = s2.
Proof.
  destruct s1, s2. unfold as_list. simpl. intros H.
  injection H as -> -> -> -> -> -> ->. reflexivity.
Qed.

Lemma as_list_injective_witness :
  {| servo0_data_ := float_45; servo1_data_ := float_zero;
     servo2_data_ := float_zero; servo3_data_ := float_zero;
     servo4_data_ := float_zero; servo5_data_ := float_zero;
     servo6_data_ := float_zero |}
  = {| servo0_data_ := Finite false (chars "45") 2; servo1_data_ := float_zero;
       servo2_data_ := float_zero; servo3_data_ := float_zero;
       servo4_data_ := float_zero; servo5_data_ := float_zero;
       servo6_data_ := float_zero |}.
Proof. apply as_list_injective. reflexivity. Defined.

(** X8.  The angles read from the arm can be sent back as they are: the
    list [as_list] returns always passes the length check of
    [move_all_joints], and on a controller whose counter has at most
    4300 digits the sample written decodes to data whose [angle<i>] is
    field [servo<i>_data_] of the telemetry sample. *)
Theorem telemetry_as_command (s : PubServoInfo) (w : world) :
  forallb float_ok (as_list s) = true ->
  int_fits (_seq (arm w)) = true ->
  sends (MoveAllJoints (map Float (as_list s))) = true
  /\ exists msg data,
       published_by (move_all_joints (map Float (as_list s))) w = [msg]
       /\ msg_field "funcode" msg = Some (Num (Int 2))
       /\ msg_field "data" msg = Some data
       /\ field "angle0" data = Some (Num (Float (servo0_data_ s)))
       /\ field "angle1" data = Some (Num (Float (servo1_data_ s)))
       /\ field "angle2" data = Some (Num (Float (servo2_data_ s)))
       /\ field "angle3" data = Some (Num (Float (servo3_data_ s)))
       /\ field "angle4" data = Some (Num (Float (servo4_data_ s)))
       /\ field "angle5" data = Some (Num (Float (servo5_data_ s)))
       /\ field "angle6" data = Some (Num (Float (servo6_data_ s))).
Proof.
  intros Hok Hseq. split; [reflexivity|].
  destruct s as [f0 f1 f2 f3 f4 f5 f6]. unfold as_list in *.
  cbn [map servo0_data_ servo1_data_ servo2_data_ servo3_data_ servo4_data_
       servo5_data_ servo6_data_] in *.
  assert (Hfit : forallb number_fits
                   [Float f0; Float f1; Float f2; Float f3; Float f4;
                    Float f5; Float f6]
                 && int_fits (_seq (arm w)) = true)
    by (cbn [forallb number_fits andb]; exact Hseq).
  rewrite (published_by_sent _ _ _ _ _
             (move_all_joints_sends (Float f0) (Float f1) (Float f2) (Float f3)
                (Float f4) (Float f5) (Float f6) w Hfit)).
  do 2 eexists. split; [reflexivity|].
  assert (Hv : value_ok
                 (Dict [ ("funcode", Num (Int 2));
                         ("data", Dict [ ("mode", Num (Int 1));
                                         ("angle0", Num (Float f0));
                                         ("angle1", Num (Float f1));
                                         ("angle2", Num (Float f2));
                                         ("angle3", Num (Float f3));
                                         ("angle4", Num (Float f4));
                                         ("angle5", Num (Float f5));
                                         ("angle6", Num (Float f6)) ]);
                         ("seq", Num (Int (_seq (arm w))));
                         ("address", Num (Int 1)) ]%string) = true).
  { cbn [forallb] in Hok.
    repeat (apply andb_true_iff in Hok as [?H Hok]).
    cbn.
    repeat match goal with H : float_ok _ = true |- _ => rewrite H; clear H end.
    reflexivity. }
  assert (Hi : ints_fit
                 (Dict [ ("funcode", Num (Int 2));
                         ("data", Dict [ ("mode", Num (Int 1));
                                         ("angle0", Num (Float f0));
                                         ("angle1", Num (Float f1));
                                         ("angle2", Num (Float f2));
                                         ("angle3", Num (Float f3));
                                         ("angle4", Num (Float f4));
                                         ("angle5", Num (Float f5));
                                         ("angle6", Num (Float f6)) ]);
                         ("seq", Num (Int (_seq (arm w))));
                         ("address", Num (Int 1)) ]%string) = true)
    by (stamped_fits; exact Hseq).
  rewrite !msg_field_sample by assumption.
  split; [reflexivity|]. split; [reflexivity|]. repeat split.
Qed.

Lemma telemetry_as_command_witness :
  exists msg data,
    published_by (move_all_joints (map Float (as_list PubServoInfo_default)))
                 (__init__ 0)
    = [msg]
    /\ msg_field "data" msg = Some data
    /\ field "angle6" data = Some (Num (Float float_zero)).
Proof.
  destruct (telemetry_as_command PubServoInfo_default (__init__ 0)
              eq_refl eq_refl)
    as (_ & msg & data & Hpub & _ & Hdata & _ & _ & _ & _ & _ & _ & H6).
  exists msg, data. repeat split; assumption.
Defined.

End ComposeFacts.

Section DistinctSamples.
Local Open Scope py_scope.

(** X9.  A controller never writes the same payload twice: the samples
    of any run from a fresh controller are pairwise different, since
    each carries its own sequence number. *)
Theorem samples_are_distinct (domain_id : Z) (cmds : list command) :
  forallb args_ok cmds = true ->
  NoDup (cmd_writer (arm (snd (run cmds (__init__ domain_id))))).
Proof.
  intros Hargs.
  destruct (run_counts cmds (__init__ domain_id) Hargs)
    as (msgs & Hcw & _ & _ & Hnth).
  rewrite Hcw. cbn [__init__ arm cmd_writer _seq app] in *.
  apply NoDup_nth_error. intros i j Hi Hij.
  destruct (nth_error msgs i) as [m|] eqn:Ei.
  - pose proof (Hnth i m Ei) as Hsi.
    pose proof (Hnth j m (eq_sym Hij)) as Hsj.
    rewrite Hsi in Hsj. injection Hsj as Hz. lia.
  - apply nth_error_None in Ei. lia.
Qed.

Lemma samples_are_distinct_witness :
  NoDup (cmd_writer (arm (snd (run example_calls (__init__ 0))))).
Proof. exact (samples_are_distinct 0 example_calls eq_refl). Defined.

End DistinctSamples.
